(** * The wasmtime adapter of wasm-nginx-module ([src/vm/wasmtime.c])

    A shallow embedding of the six operations the adapter exports through
    [ngx_wasm_vm] (init, cleanup, load, unload, call, and the static error
    reporter they share), followed by the properties of the adapter.

    The adapter is a thin layer of control flow around calls into three
    foreign interfaces: the wasmtime C API ([wasm.h], [wasmtime.h], [wasi.h]),
    nginx ([ngx_alloc], [ngx_free], the log macros) and the host-API table of
    the HTTP module.  Every such call is kept as a node of a program tree
    ([prog]); what the foreign side answers is supplied from outside by a
    [handler], so a statement quantified over all handlers speaks about every
    behaviour of the engine.  Running a tree records the calls made, in
    order, together with their answers: the [trace]. *)

From Stdlib Require Import ZArith NArith List String Bool Lia.
Import ListNotations.
Local Open Scope string_scope.
Local Open Scope list_scope.

Set Implicit Arguments.

(** ** Data *)

(** A C pointer: an address, [NULL] being address zero. *)
Definition ptr := N.
Definition NULL : ptr := 0%N.

Definition is_null (p : ptr) : bool := N.eqb p NULL.

(** [ngx_int_t] is [intptr_t]; the status codes are those of nginx'
    [ngx_core.h]. *)
Definition ngx_int_t := Z.
Definition NGX_OK : ngx_int_t := 0%Z.
Definition NGX_ERROR : ngx_int_t := (-1)%Z.
Definition NGX_DECLINED : ngx_int_t := (-5)%Z.

(** [int32_t]: a signed 32-bit integer kept as a [Z]; [sint32] is the value
    a [Z] has once stored in 32 bits (two's complement wrap-around). *)
Definition int32_min : Z := (- 2 ^ 31)%Z.
Definition int32_max : Z := (2 ^ 31 - 1)%Z.
Definition sint32 (z : Z) : Z := ((z + 2 ^ 31) mod 2 ^ 32 - 2 ^ 31)%Z.
Definition int32_range (z : Z) : Prop := (int32_min <= z <= int32_max)%Z.

(** [wasmtime_valkind_t] is a [uint8_t]; the kinds are those of
    [wasmtime/val.h]. *)
Definition wasmtime_valkind_t := Z.
Definition WASMTIME_I32 : wasmtime_valkind_t := 0%Z.
Definition WASMTIME_I64 : wasmtime_valkind_t := 1%Z.
Definition WASMTIME_F32 : wasmtime_valkind_t := 2%Z.
Definition WASMTIME_F64 : wasmtime_valkind_t := 3%Z.

(** [wasmtime_val_t]: a kind and the union [of].  The adapter reads and
    writes the union through its [i32] member only, so the union is kept as
    that view. *)
Record wasmtime_val_t := mk_val {
  kind : wasmtime_valkind_t;
  of_i32 : Z
}.

(** [wasmtime_extern_t]; only [of.func] is used by the adapter. *)
Record wasmtime_extern_t := mk_extern {
  extern_kind : Z;
  of_func : N
}.

(** [wasmtime_instance_t] is a plain struct of indices into the store. *)
Definition wasmtime_instance_t := N.

(** [wasm_byte_vec_t] *)
Record wasm_byte_vec_t := mk_byte_vec {
  size : N;
  data : string
}.

(** [ngx_wasm_wasmtime_plugin_t] (lines 8-14). *)
Record ngx_wasm_wasmtime_plugin_t := mk_plugin {
  module : ptr;
  store : ptr;
  context : ptr;
  linker : ptr;
  instance : wasmtime_instance_t
}.

(** Modelled from the spec: the entry type of the host-API table, declared in
    [http/ngx_http_wasm_api.h]: an immutable triple of name, signature
    descriptor and native callback pointer.  An [ngx_str_t] name is kept as
    a string, its [len] being the length of the string. *)
Record ngx_wasm_host_api_t := mk_host_api {
  name : string;
  signature : N;
  cb : ptr
}.

Definition name_len (a : ngx_wasm_host_api_t) : nat := String.length (name a).

(** The file-scope variables (lines 17-19).  [vm_name] is a constant. *)
Definition vm_name : string := "wasmtime".

Record globals := mk_globals {
  vm_engine : ptr;
  param_int32_int32 : wasmtime_val_t * wasmtime_val_t
}.

Definition initial_globals : globals :=
  {| vm_engine := NULL;
     param_int32_int32 := (mk_val WASMTIME_I32 0, mk_val WASMTIME_I32 0) |}.

(** Log severities used by the adapter. *)
Inductive ngx_log_level :=
  NGX_LOG_ERR | NGX_LOG_NOTICE | NGX_LOG_INFO | NGX_LOG_DEBUG_CORE.

(** An argument of a log call, as passed after the format string. *)
Inductive log_arg :=
| arg_str (s : string)
| arg_size (n : N)
| arg_int (z : Z).

(** ** The foreign interface

    One constructor per foreign function the adapter calls, indexed by the
    type of what comes back.  Out-parameters are part of the answer: for
    [wasmtime_module_new] the answer is the returned error and the value
    found in [module] after the call; for [wasmtime_linker_instantiate] the
    returned error, the instance written into the plugin record and the
    value of [trap]; for [wasmtime_func_call] the returned error, the
    content of [results[0]] and the value of [trap]. *)
Inductive api : Type -> Type :=
| wasm_engine_new : api ptr
| wasm_engine_delete (engine : ptr) : api unit
| wasmtime_module_new (engine : ptr) (wasm : list Byte.byte) : api (ptr * ptr)
| wasmtime_module_delete (m : ptr) : api unit
| wasmtime_store_new (engine : ptr) : api ptr
| wasmtime_store_context (s : ptr) : api ptr
| wasmtime_store_delete (s : ptr) : api unit
| wasi_config_new : api ptr
| wasi_config_inherit_argv (config : ptr) : api unit
| wasi_config_inherit_env (config : ptr) : api unit
| wasi_config_inherit_stdin (config : ptr) : api unit
| wasi_config_inherit_stdout (config : ptr) : api unit
| wasi_config_inherit_stderr (config : ptr) : api unit
| wasi_config_delete (config : ptr) : api unit
| wasmtime_context_set_wasi (ctx config : ptr) : api ptr
| wasmtime_linker_new (engine : ptr) : api ptr
| wasmtime_linker_define_wasi (l : ptr) : api ptr
| wasmtime_linker_define_func (l : ptr) (namespace field : string)
    (ty callback : ptr) : api ptr
| wasmtime_linker_delete (l : ptr) : api unit
| wasmtime_linker_instantiate (l ctx m plugin : ptr)
    : api (ptr * wasmtime_instance_t * ptr)
| wasmtime_instance_export_get (ctx : ptr) (inst : wasmtime_instance_t)
    (field : string) : api (bool * wasmtime_extern_t)
| wasmtime_func_call (ctx : ptr) (func : N) (params : list wasmtime_val_t)
    (nresults : nat) : api (ptr * wasmtime_val_t * ptr)
| wasmtime_error_message (error : ptr) : api wasm_byte_vec_t
| wasmtime_error_delete (error : ptr) : api unit
| wasm_trap_message (trap : ptr) : api wasm_byte_vec_t
| wasm_trap_delete (trap : ptr) : api unit
| wasm_byte_vec_delete (v : wasm_byte_vec_t) : api unit
| wasm_functype_delete (f : ptr) : api unit
| ngx_http_wasm_host_api_func (a : ngx_wasm_host_api_t) : api ptr
| ngx_alloc : api ptr
| ngx_free (p : ptr) : api unit
| ngx_log_error (level : ngx_log_level) (fmt : string) (args : list log_arg)
    : api unit
| ngx_log_debug (level : ngx_log_level) (fmt : string) (args : list log_arg)
    : api unit.

(** ** Programs over the foreign interface *)

(** A program either returns, performs a foreign call and continues with its
    answer, or has no defined behaviour in C ([Undef]: a [va_arg] past the
    arguments supplied, a read past the end of an array). *)
Inductive prog (A : Type) : Type :=
| Ret (a : A)
| Vis (X : Type) (e : api X) (k : X -> prog A)
| Undef.

Arguments Ret {A} a.
Arguments Vis {A X} e k.
Arguments Undef {A}.

Fixpoint bind {A B} (p : prog A) (f : A -> prog B) : prog B :=
  match p with
  | Ret a => f a
  | Vis e k => Vis e (fun x => bind (k x) f)
  | Undef => Undef
  end.

Definition call {X} (e : api X) : prog X := Vis e Ret.

Declare Scope prog_scope.
Delimit Scope prog_scope with prog.
Notation "x <- c ;; k" := (bind c (fun x => k))
  (at level 61, c at next level, right associativity) : prog_scope.
Notation "' pat <- c ;; k" := (bind c (fun x => match x with pat => k end))
  (at level 61, pat pattern, c at next level, right associativity) : prog_scope.
Notation "c ;; k" := (bind c (fun _ => k))
  (at level 61, right associativity) : prog_scope.
Local Open Scope prog_scope.

(** One recorded call: the call and its answer. *)
Inductive event : Type :=
| Event (X : Type) (e : api X) (answer : X).

Arguments Event {X} e answer.

Definition trace := list event.

(** The foreign side: given its own state, it answers a call and moves to a
    new state. *)
Definition handler (W : Type) := forall X, api X -> W -> X * W.

(** The outcome of a run: the value returned ([None] when the program hit
    [Undef]), the state the foreign side is left in, and the trace. *)
Record outcome (A W : Type) := mk_outcome {
  returned : option A;
  world : W;
  calls : trace
}.

Fixpoint run {A W} (h : handler W) (p : prog A) (w : W) : outcome A W :=
  match p with
  | Ret a => mk_outcome (Some a) w []
  | Undef => mk_outcome None w []
  | Vis e k =>
      let xw := h _ e w in
      let o := run h (k (fst xw)) (snd xw) in
      mk_outcome (returned o) (world o) (Event e (fst xw) :: calls o)
  end.

(** ** The adapter *)

(** [ngx_wasm_wasmtime_report_error] (lines 22-39).  The [log] argument is
    [ngx_cycle->log] at every call site and is left out. *)
Definition ngx_wasm_wasmtime_report_error (message : string)
    (error trap : ptr) : prog unit :=
  error_message <-
    (if negb (is_null error) then
       m <- call (wasmtime_error_message error) ;;
       call (wasmtime_error_delete error) ;;
       Ret m
     else
       m <- call (wasm_trap_message trap) ;;
       call (wasm_trap_delete trap) ;;
       Ret m) ;;
  call (ngx_log_error NGX_LOG_ERR "%s%*s"
          [arg_str message; arg_size (size error_message);
           arg_str (data error_message)]) ;;
  call (wasm_byte_vec_delete error_message).

(** [ngx_wasm_wasmtime_init] (lines 42-53): returns the status and the
    file-scope variables as the function leaves them. *)
Definition ngx_wasm_wasmtime_init (g : globals) : prog (ngx_int_t * globals) :=
  call (ngx_log_error NGX_LOG_NOTICE "init wasm vm: wasmtime" []) ;;
  engine <- call wasm_engine_new ;;
  let g := {| vm_engine := engine;
              param_int32_int32 := param_int32_int32 g |} in
  if is_null (vm_engine g) then Ret (NGX_DECLINED, g)
  else Ret (NGX_OK, g).

(** [ngx_wasm_wasmtime_cleanup] (lines 56-65). *)
Definition ngx_wasm_wasmtime_cleanup (g : globals) : prog unit :=
  if is_null (vm_engine g) then Ret tt
  else
    call (ngx_log_error NGX_LOG_INFO "cleanup wasm vm: wasmtime" []) ;;
    call (wasm_engine_delete (vm_engine g)).

Section Load.

(** The host-API table [host_apis] is defined by the HTTP module and is not
    part of this file: it is taken as given, as the array it is, the entry
    with an empty name that ends it included. *)
Variable host_apis : list ngx_wasm_host_api_t.

(** What load hands back: [None] for [NULL], otherwise the address of the
    plugin record and the content of the record at the return. *)
Definition loaded := option (ptr * ngx_wasm_wasmtime_plugin_t).

(** The rollback labels (lines 161-173); each falls through to the next. *)
Definition free_module (module : ptr) : prog loaded :=
  call (wasmtime_module_delete module) ;;
  Ret None.

Definition free_store (store module : ptr) : prog loaded :=
  call (wasmtime_store_delete store) ;;
  free_module module.

Definition free_config (wasi_config store module : ptr) : prog loaded :=
  call (wasi_config_delete wasi_config) ;;
  free_store store module.

Definition free_linker (linker wasi_config store module : ptr) : prog loaded :=
  call (wasmtime_linker_delete linker) ;;
  free_config wasi_config store module.

(** The loop of lines 121-139 from the entry it stands at: [true] when the
    loop ran to the terminating entry, [false] when a definition failed (the
    error is reported and the caller jumps to [free_linker]).  A table
    without a terminating entry is read past its end. *)
Fixpoint define_host_apis (linker : ptr) (apis : list ngx_wasm_host_api_t)
    : prog bool :=
  match apis with
  | [] => Undef
  | api :: rest =>
      if Nat.eqb (name_len api) 0 then Ret true
      else
        call (ngx_log_debug NGX_LOG_DEBUG_CORE "define wasm host API %V"
                [arg_str (name api)]) ;;
        f <- call (ngx_http_wasm_host_api_func api) ;;
        error <- call (wasmtime_linker_define_func linker "env" (name api)
                         f (cb api)) ;;
        call (wasm_functype_delete f) ;;
        if negb (is_null error) then
          ngx_wasm_wasmtime_report_error "failed to define API" error NULL ;;
          Ret false
        else define_host_apis linker rest
  end.

(** [ngx_wasm_wasmtime_load] (lines 68-174). *)
Definition ngx_wasm_wasmtime_load (g : globals) (bytecode : list Byte.byte)
    : prog loaded :=
  '(error, module) <- call (wasmtime_module_new (vm_engine g) bytecode) ;;
  if is_null module then Ret None
  else
  store <- call (wasmtime_store_new (vm_engine g)) ;;
  if is_null store then free_module module
  else
  context <- call (wasmtime_store_context store) ;;
  wasi_config <- call wasi_config_new ;;
  if is_null wasi_config then free_store store module
  else
  call (wasi_config_inherit_argv wasi_config) ;;
  call (wasi_config_inherit_env wasi_config) ;;
  call (wasi_config_inherit_stdin wasi_config) ;;
  call (wasi_config_inherit_stdout wasi_config) ;;
  call (wasi_config_inherit_stderr wasi_config) ;;
  error <- call (wasmtime_context_set_wasi context wasi_config) ;;
  if negb (is_null error) then
    ngx_wasm_wasmtime_report_error "failed to init WASI: " error NULL ;;
    free_config wasi_config store module
  else
  linker <- call (wasmtime_linker_new (vm_engine g)) ;;
  if is_null linker then free_config wasi_config store module
  else
  error <- call (wasmtime_linker_define_wasi linker) ;;
  if negb (is_null error) then
    ngx_wasm_wasmtime_report_error "failed to init WASI: " error NULL ;;
    free_linker linker wasi_config store module
  else
  defined <- define_host_apis linker host_apis ;;
  if negb defined then free_linker linker wasi_config store module
  else
  plugin <- call ngx_alloc ;;
  if is_null plugin then free_linker linker wasi_config store module
  else
  '(error, inst, trap) <-
    call (wasmtime_linker_instantiate linker context module plugin) ;;
  if negb (is_null error) then
    ngx_wasm_wasmtime_report_error "failed to new instance: " error NULL ;;
    free_linker linker wasi_config store module
  else
  call (ngx_log_error NGX_LOG_INFO "loaded wasm plugin" []) ;;
  Ret (Some (plugin,
             {| module := module; store := store; context := context;
                linker := linker; instance := inst |})).

End Load.

(** [ngx_wasm_wasmtime_unload] (lines 177-189): [data] is the address of
    the record, [plugin] its content. *)
Definition ngx_wasm_wasmtime_unload (data : ptr)
    (plugin : ngx_wasm_wasmtime_plugin_t) : prog unit :=
  call (wasmtime_module_delete (module plugin)) ;;
  call (wasmtime_store_delete (store plugin)) ;;
  call (wasmtime_linker_delete (linker plugin)) ;;
  call (ngx_free data) ;;
  call (ngx_log_error NGX_LOG_INFO "unloaded wasm plugin" []).

Section Call.

(** The parameter-shape tags are macros of [vm.h], which is not part of this
    file: they are taken as given. *)
Variables NGX_WASM_PARAM_VOID NGX_WASM_PARAM_I32_I32 : Z.

(** [ngx_wasm_wasmtime_call] (lines 192-258).  [args] are the variadic
    arguments; the function returns its status and the file-scope variables
    as it leaves them ([param_int32_int32] is written by the two-int32
    shape). *)
Definition ngx_wasm_wasmtime_call (g : globals)
    (plugin : ngx_wasm_wasmtime_plugin_t) (name : string) (has_result : bool)
    (param_type : Z) (args : list Z) : prog (ngx_int_t * globals) :=
  call (ngx_log_debug NGX_LOG_DEBUG_CORE "wasmtime call function %V"
          [arg_str name]) ;;
  '(found, func) <- call (wasmtime_instance_export_get (context plugin)
                            (instance plugin) name) ;;
  if negb found then
    call (ngx_log_debug NGX_LOG_DEBUG_CORE "wasmtime function %V not defined"
            [arg_str name]) ;;
    Ret (NGX_OK, g)
  else
  (* lines 234-257, reached from the two shapes of the switch *)
  let invoke (params : list wasmtime_val_t) (g : globals) :=
    '(error, result0, trap) <-
      call (wasmtime_func_call (context plugin) (of_func func) params
              (if has_result then 1%nat else 0%nat)) ;;
    if negb (is_null error) || negb (is_null trap) then
      ngx_wasm_wasmtime_report_error "failed to call function: " error trap ;;
      Ret (NGX_ERROR, g)
    else if negb has_result then
      call (ngx_log_debug NGX_LOG_DEBUG_CORE "wasmtime call function done"
              []) ;;
      Ret (NGX_OK, g)
    else if negb (Z.eqb (kind result0) WASMTIME_I32) then
      call (ngx_log_error NGX_LOG_ERR "function returns unexpected type: %d"
              [arg_int (kind result0)]) ;;
      Ret (NGX_ERROR, g)
    else
      let rc := of_i32 result0 in
      call (ngx_log_debug NGX_LOG_DEBUG_CORE
              "wasmtime call function result: %d" [arg_int rc]) ;;
      Ret (rc, g)
  in
  if Z.eqb param_type NGX_WASM_PARAM_I32_I32 then
    match args with
    | a :: b :: _ =>
        let p0 := {| kind := kind (fst (param_int32_int32 g)); of_i32 := a |} in
        let p1 := {| kind := kind (snd (param_int32_int32 g)); of_i32 := b |} in
        invoke [p0; p1]
          {| vm_engine := vm_engine g; param_int32_int32 := (p0, p1) |}
    | _ => Undef
    end
  else if Z.eqb param_type NGX_WASM_PARAM_VOID then
    invoke [] g
  else
    call (ngx_log_error NGX_LOG_ERR "unknown param type: %d"
            [arg_int param_type]) ;;
    Ret (NGX_ERROR, g).

End Call.

(** ** Resource accounting

    What the foreign calls of a trace acquire and release, following the
    ownership rules the headers document: a constructor that answers a
    non-null pointer hands a new resource to the caller; the matching
    [_delete] releases it; [wasmtime_context_set_wasi] passes the
    configuration to the store behind the context, which releases it
    together with itself.  When [wasmtime_context_set_wasi] answers an
    error the configuration is counted as still the caller's: ownership
    passes with a successful step only, the reading under which the
    rollback of load has the most left to release. *)

Inductive resource_kind :=
| R_engine | R_module | R_store | R_wasi_config | R_linker | R_functype
| R_error | R_trap | R_memory.

Definition resource := (resource_kind * ptr)%type.

Definition resource_kind_eqb (a b : resource_kind) : bool :=
  match a, b with
  | R_engine, R_engine | R_module, R_module | R_store, R_store
  | R_wasi_config, R_wasi_config | R_linker, R_linker
  | R_functype, R_functype | R_error, R_error | R_trap, R_trap
  | R_memory, R_memory => true
  | _, _ => false
  end.

Definition resource_eqb (a b : resource) : bool :=
  resource_kind_eqb (fst a) (fst b) && N.eqb (snd a) (snd b).

(** The ledger: the resources held ([live]), which store each context
    belongs to, which configuration was passed to which context, and the
    releases of something not held ([faults]: a second release, or a release
    of what was never acquired). *)
Record ledger := mk_ledger {
  live : list resource;
  context_of : list (ptr * ptr);
  attached : list (ptr * ptr);
  faults : list resource
}.

Definition empty_ledger : ledger := mk_ledger [] [] [] [].

Fixpoint remove_one (r : resource) (l : list resource) : list resource :=
  match l with
  | [] => []
  | x :: l' => if resource_eqb r x then l' else x :: remove_one r l'
  end.

Definition holds (l : ledger) (r : resource) : bool :=
  existsb (resource_eqb r) (live l).

Definition acquire (k : resource_kind) (p : ptr) (l : ledger) : ledger :=
  if is_null p then l
  else mk_ledger ((k, p) :: live l) (context_of l) (attached l) (faults l).

Definition release (k : resource_kind) (p : ptr) (l : ledger) : ledger :=
  if holds l (k, p)
  then mk_ledger (remove_one (k, p) (live l)) (context_of l) (attached l)
         (faults l)
  else mk_ledger (live l) (context_of l) (attached l) (faults l ++ [(k, p)]).

(** The configurations passed to a context of store [s]. *)
Definition configs_of_store (s : ptr) (l : ledger) : list ptr :=
  map snd
    (filter (fun ca => existsb (fun cs => N.eqb (fst cs) (fst ca)
                                          && N.eqb (snd cs) s)
                         (context_of l))
       (attached l)).

Definition detach_store (s : ptr) (l : ledger) : ledger :=
  mk_ledger (live l) (context_of l)
    (filter (fun ca => negb (existsb (fun cs => N.eqb (fst cs) (fst ca)
                                                && N.eqb (snd cs) s)
                               (context_of l)))
       (attached l))
    (faults l).

Definition effect {X} (e : api X) : X -> ledger -> ledger :=
  match e in api X return X -> ledger -> ledger with
  | wasm_engine_new => fun r l => acquire R_engine r l
  | wasm_engine_delete engine => fun _ l => release R_engine engine l
  | wasmtime_module_new _ _ => fun r l =>
      acquire R_module (snd r) (acquire R_error (fst r) l)
  | wasmtime_module_delete m => fun _ l => release R_module m l
  | wasmtime_store_new _ => fun r l => acquire R_store r l
  | wasmtime_store_context s => fun r l =>
      mk_ledger (live l) ((r, s) :: context_of l) (attached l) (faults l)
  | wasmtime_store_delete s => fun _ l =>
      detach_store s
        (fold_left (fun l c => release R_wasi_config c l)
           (configs_of_store s l) (release R_store s l))
  | wasi_config_new => fun r l => acquire R_wasi_config r l
  | wasi_config_delete config => fun _ l => release R_wasi_config config l
  | wasmtime_context_set_wasi ctx config => fun r l =>
      if is_null r
      then mk_ledger (live l) (context_of l) ((ctx, config) :: attached l)
             (faults l)
      else acquire R_error r l
  | wasmtime_linker_new _ => fun r l => acquire R_linker r l
  | wasmtime_linker_define_wasi _ => fun r l => acquire R_error r l
  | wasmtime_linker_define_func _ _ _ _ _ => fun r l => acquire R_error r l
  | wasmtime_linker_delete lk => fun _ l => release R_linker lk l
  | wasmtime_linker_instantiate _ _ _ _ => fun r l =>
      acquire R_trap (snd r) (acquire R_error (fst (fst r)) l)
  | wasmtime_func_call _ _ _ _ => fun r l =>
      acquire R_trap (snd r) (acquire R_error (fst (fst r)) l)
  | wasmtime_error_delete error => fun _ l => release R_error error l
  | wasm_trap_delete trap => fun _ l => release R_trap trap l
  | wasm_functype_delete f => fun _ l => release R_functype f l
  | ngx_http_wasm_host_api_func _ => fun r l => acquire R_functype r l
  | ngx_alloc => fun r l => acquire R_memory r l
  | ngx_free p => fun _ l => release R_memory p l
  | _ => fun _ l => l
  end.

Definition audit (t : trace) : ledger :=
  fold_left (fun l ev => match ev with Event e x => effect e x l end)
    t empty_ledger.

(** ** A scripted engine

    A concrete foreign side for running the adapter on examples: every
    answer is read off a [script], except that the linker refuses a name it
    has already been given and that exports are run as guest functions.  Its
    state is the list of names defined in the linker so far. *)

Inductive guest_result :=
| guest_returns (vs : list wasmtime_val_t)
| guest_traps.

Definition guest_func := list wasmtime_val_t -> guest_result.

Record script := mk_script {
  s_engine : ptr;
  s_module_new : ptr * ptr;
  s_store : ptr;
  s_context : ptr;
  s_wasi_config : ptr;
  s_set_wasi : ptr;
  s_linker : ptr;
  s_define_wasi : ptr;
  s_functype : ptr;
  s_duplicate_error : ptr;
  s_alloc : ptr;
  s_instantiate : ptr * wasmtime_instance_t * ptr;
  s_exports : list (string * guest_func);
  s_call_error : ptr;
  s_call_trap : ptr;
  s_message : string
}.

Fixpoint export_index (field : string) (es : list (string * guest_func))
    (i : N) : option N :=
  match es with
  | [] => None
  | (n, _) :: es' =>
      if String.eqb n field then Some i else export_index field es' (N.succ i)
  end.

(** What is found in a [wasmtime_val_t] or [wasmtime_extern_t] the engine
    did not write. *)
Definition unwritten_val : wasmtime_val_t := mk_val WASMTIME_I64 0.
Definition unwritten_extern : wasmtime_extern_t := mk_extern 0 0%N.

Definition scripted_func_call (s : script) (func : N)
    (params : list wasmtime_val_t) (nresults : nat)
    : ptr * wasmtime_val_t * ptr :=
  match nth_error (s_exports s) (N.to_nat func) with
  | None => (s_call_error s, unwritten_val, NULL)
  | Some (_, f) =>
      match f params with
      | guest_traps => (NULL, unwritten_val, s_call_trap s)
      | guest_returns vs =>
          if Nat.eqb (List.length vs) nresults
          then (NULL, hd unwritten_val vs, NULL)
          else (s_call_error s, unwritten_val, NULL)
      end
  end.

Definition scripted (s : script) : handler (list string) :=
  fun X (e : api X) (w : list string) =>
    match e in api X return X * list string with
    | wasm_engine_new => (s_engine s, w)
    | wasm_engine_delete _ => (tt, w)
    | wasmtime_module_new _ _ => (s_module_new s, w)
    | wasmtime_module_delete _ => (tt, w)
    | wasmtime_store_new _ => (s_store s, w)
    | wasmtime_store_context _ => (s_context s, w)
    | wasmtime_store_delete _ => (tt, w)
    | wasi_config_new => (s_wasi_config s, w)
    | wasi_config_inherit_argv _ => (tt, w)
    | wasi_config_inherit_env _ => (tt, w)
    | wasi_config_inherit_stdin _ => (tt, w)
    | wasi_config_inherit_stdout _ => (tt, w)
    | wasi_config_inherit_stderr _ => (tt, w)
    | wasi_config_delete _ => (tt, w)
    | wasmtime_context_set_wasi _ _ => (s_set_wasi s, w)
    | wasmtime_linker_new _ => (s_linker s, [])
    | wasmtime_linker_define_wasi _ => (s_define_wasi s, w)
    | wasmtime_linker_define_func _ _ field _ _ =>
        if existsb (String.eqb field) w then (s_duplicate_error s, w)
        else (NULL, field :: w)
    | wasmtime_linker_delete _ => (tt, [])
    | wasmtime_linker_instantiate _ _ _ _ => (s_instantiate s, w)
    | wasmtime_instance_export_get _ _ field =>
        match export_index field (s_exports s) 0%N with
        | Some i => ((true, mk_extern 0 i), w)
        | None => ((false, unwritten_extern), w)
        end
    | wasmtime_func_call _ func params nresults =>
        (scripted_func_call s func params nresults, w)
    | wasmtime_error_message _ =>
        (mk_byte_vec (N.of_nat (String.length (s_message s))) (s_message s), w)
    | wasmtime_error_delete _ => (tt, w)
    | wasm_trap_message _ =>
        (mk_byte_vec (N.of_nat (String.length (s_message s))) (s_message s), w)
    | wasm_trap_delete _ => (tt, w)
    | wasm_byte_vec_delete _ => (tt, w)
    | wasm_functype_delete _ => (tt, w)
    | ngx_http_wasm_host_api_func _ => (s_functype s, w)
    | ngx_alloc => (s_alloc s, w)
    | ngx_free _ => (tt, w)
    | ngx_log_error _ _ _ => (tt, w)
    | ngx_log_debug _ _ _ => (tt, w)
    end.

(** The guest of the examples: [add] is [i32.add], [minus_one] returns -1,
    [wide] returns an [i64], [crash] executes [unreachable]. *)
Definition guest_add : guest_func := fun params =>
  match params with
  | [a; b] => guest_returns [mk_val WASMTIME_I32 (sint32 (of_i32 a + of_i32 b))]
  | _ => guest_traps
  end.

Definition guest_exports : list (string * guest_func) :=
  [ ("add", guest_add);
    ("minus_one", fun _ => guest_returns [mk_val WASMTIME_I32 (-1)]);
    ("wide", fun _ => guest_returns [mk_val WASMTIME_I64 0]);
    ("crash", fun _ => guest_traps) ].

(** The engine for which every step of load succeeds. *)
Definition all_succeed : script :=
  {| s_engine := 1%N; s_module_new := (NULL, 2%N); s_store := 3%N;
     s_context := 4%N; s_wasi_config := 5%N; s_set_wasi := NULL;
     s_linker := 6%N; s_define_wasi := NULL; s_functype := 7%N;
     s_duplicate_error := 20%N; s_alloc := 8%N;
     s_instantiate := (NULL, 9%N, NULL); s_exports := guest_exports;
     s_call_error := 21%N; s_call_trap := 22%N; s_message := "diagnostic" |}.

(** The engines of the failing runs: compilation fails (the error comes
    back with a null [module]); the linker cannot be created; the
    instantiation answers an error. *)
Definition compilation_fails : script :=
  {| s_engine := 1%N; s_module_new := (30%N, NULL); s_store := 3%N;
     s_context := 4%N; s_wasi_config := 5%N; s_set_wasi := NULL;
     s_linker := 6%N; s_define_wasi := NULL; s_functype := 7%N;
     s_duplicate_error := 20%N; s_alloc := 8%N;
     s_instantiate := (NULL, 9%N, NULL); s_exports := guest_exports;
     s_call_error := 21%N; s_call_trap := 22%N;
     s_message := "expected magic header" |}.

Definition linker_fails : script :=
  {| s_engine := 1%N; s_module_new := (NULL, 2%N); s_store := 3%N;
     s_context := 4%N; s_wasi_config := 5%N; s_set_wasi := NULL;
     s_linker := NULL; s_define_wasi := NULL; s_functype := 7%N;
     s_duplicate_error := 20%N; s_alloc := 8%N;
     s_instantiate := (NULL, 9%N, NULL); s_exports := guest_exports;
     s_call_error := 21%N; s_call_trap := 22%N; s_message := "" |}.

Definition instantiation_fails : script :=
  {| s_engine := 1%N; s_module_new := (NULL, 2%N); s_store := 3%N;
     s_context := 4%N; s_wasi_config := 5%N; s_set_wasi := NULL;
     s_linker := 6%N; s_define_wasi := NULL; s_functype := 7%N;
     s_duplicate_error := 20%N; s_alloc := 8%N;
     s_instantiate := (30%N, 9%N, NULL); s_exports := guest_exports;
     s_call_error := 21%N; s_call_trap := 22%N;
     s_message := "unknown import: env::proxy_done" |}.

(** The engine whose instantiation answers no error but a trap (the start
    function of the guest trapped). *)
Definition start_traps : script :=
  {| s_engine := 1%N; s_module_new := (NULL, 2%N); s_store := 3%N;
     s_context := 4%N; s_wasi_config := 5%N; s_set_wasi := NULL;
     s_linker := 6%N; s_define_wasi := NULL; s_functype := 7%N;
     s_duplicate_error := 20%N; s_alloc := 8%N;
     s_instantiate := (NULL, 9%N, 31%N); s_exports := guest_exports;
     s_call_error := 21%N; s_call_trap := 22%N;
     s_message := "wasm trap: unreachable" |}.

Definition example_host_apis : list ngx_wasm_host_api_t :=
  [ mk_host_api "proxy_log" 1%N 100%N;
    mk_host_api "proxy_get_property" 2%N 101%N;
    mk_host_api "" 0%N NULL ].

(** A table that names one function twice. *)
Definition duplicate_host_apis : list ngx_wasm_host_api_t :=
  [ mk_host_api "proxy_log" 1%N 100%N;
    mk_host_api "proxy_log" 1%N 100%N;
    mk_host_api "" 0%N NULL ].

Definition example_globals : globals :=
  {| vm_engine := 1%N; param_int32_int32 := param_int32_int32 initial_globals |}.

Definition example_plugin : ngx_wasm_wasmtime_plugin_t :=
  {| module := 2%N; store := 3%N; context := 4%N; linker := 6%N;
     instance := 9%N |}.

(** ** Reading a trace *)

(** The export lookups of a trace: the name asked for and the answer. *)
Definition lookup_of (ev : event)
    : option (string * (bool * wasmtime_extern_t)) :=
  match ev with
  | Event e x =>
      match e in api X return X -> option (string * (bool * wasmtime_extern_t))
      with
      | wasmtime_instance_export_get _ _ field => fun x => Some (field, x)
      | _ => fun _ => None
      end x
  end.

(** The guest invocations of a trace: the function, the marshalled
    parameters, the result arity asked for, and the answer. *)
Definition invocation := (N * list wasmtime_val_t * nat
                          * (ptr * wasmtime_val_t * ptr))%type.

Definition invocation_of (ev : event) : option invocation :=
  match ev with
  | Event e x =>
      match e in api X return X -> option invocation with
      | wasmtime_func_call _ func params nresults =>
          fun x => Some (func, params, nresults, x)
      | _ => fun _ => None
      end x
  end.

(** The lines written to the error log by [ngx_log_error] (the debug macros
    are not part of it). *)
Definition log_line := (ngx_log_level * string * list log_arg)%type.

Definition log_line_of (ev : event) : option log_line :=
  match ev with
  | Event e _ =>
      match e with
      | ngx_log_error level fmt args => Some (level, fmt, args)
      | _ => None
      end
  end.

(** The answers of [wasmtime_module_new]: returned error and [module]. *)
Definition compilation_of (ev : event) : option (ptr * ptr) :=
  match ev with
  | Event e x =>
      match e in api X return X -> option (ptr * ptr) with
      | wasmtime_module_new _ _ => fun x => Some x
      | _ => fun _ => None
      end x
  end.

Definition is_allocation (ev : event) : bool :=
  match ev with
  | Event e _ =>
      match e with
      | wasmtime_store_new _ | wasmtime_linker_new _ | wasi_config_new
      | ngx_alloc => true
      | _ => false
      end
  end.

(** The answers of [ngx_alloc], the arguments of
    [ngx_free], the plugin record and the answer of each instantiation, the
    context, configuration and answer of each
    [wasmtime_context_set_wasi], the stores asked for their context, and
    the arguments of [wasi_config_delete] and [wasmtime_store_delete]. *)
Definition alloc_of (ev : event) : option ptr :=
  match ev with
  | Event e x =>
      match e in api X return X -> option ptr with
      | ngx_alloc => fun x => Some x
      | _ => fun _ => None
      end x
  end.

Definition free_of (ev : event) : option ptr :=
  match ev with
  | Event e _ => match e with ngx_free p => Some p | _ => None end
  end.

Definition instantiation_of (ev : event)
    : option (ptr * (ptr * wasmtime_instance_t * ptr)) :=
  match ev with
  | Event e x =>
      match e in api X
            return X -> option (ptr * (ptr * wasmtime_instance_t * ptr)) with
      | wasmtime_linker_instantiate _ _ _ plugin => fun x => Some (plugin, x)
      | _ => fun _ => None
      end x
  end.

Definition attachment_of (ev : event) : option (ptr * ptr * ptr) :=
  match ev with
  | Event e x =>
      match e in api X return X -> option (ptr * ptr * ptr) with
      | wasmtime_context_set_wasi ctx config => fun x => Some (ctx, config, x)
      | _ => fun _ => None
      end x
  end.

Definition context_query_of (ev : event) : option (ptr * ptr) :=
  match ev with
  | Event e x =>
      match e in api X return X -> option (ptr * ptr) with
      | wasmtime_store_context s => fun x => Some (s, x)
      | _ => fun _ => None
      end x
  end.

Definition config_delete_of (ev : event) : option ptr :=
  match ev with
  | Event e _ =>
      match e with wasi_config_delete c => Some c | _ => None end
  end.

Definition store_delete_of (ev : event) : option ptr :=
  match ev with
  | Event e _ =>
      match e with wasmtime_store_delete s => Some s | _ => None end
  end.

Fixpoint collect {B} (f : event -> option B) (t : trace) : list B :=
  match t with
  | [] => []
  | ev :: t' =>
      match f ev with
      | Some b => b :: collect f t'
      | None => collect f t'
      end
  end.

Definition lookups (t : trace) := collect lookup_of t.
Definition invocations (t : trace) := collect invocation_of t.
Definition error_log (t : trace) := collect log_line_of t.
Definition compilations (t : trace) := collect compilation_of t.

(** The foreign calls made while the host APIs are defined: debug lines,
    the function type of an entry, its definition and the reporter's calls. *)
Definition in_definition_loop (ev : event) : bool :=
  match ev with
  | Event e _ =>
      match e with
      | ngx_log_debug _ _ _ | ngx_http_wasm_host_api_func _
      | wasmtime_linker_define_func _ _ _ _ _ | wasm_functype_delete _
      | wasmtime_error_message _ | wasmtime_error_delete _
      | wasm_trap_message _ | wasm_trap_delete _ | ngx_log_error _ _ _
      | wasm_byte_vec_delete _ => true
      | _ => false
      end
  end.

(** The status of a call, its second component (the file-scope variables)
    dropped. *)
Definition status_of {W} (o : outcome (ngx_int_t * globals) W)
    : option ngx_int_t :=
  option_map fst (returned o).

(** The ledger a trace leads to from a given ledger; [audit] is the case
    of the empty ledger. *)
Definition audit_from (l : ledger) (t : trace) : ledger :=
  fold_left (fun l ev => match ev with Event e x => effect e x l end) t l.

Definition non_null (p : ptr) : bool := negb (is_null p).

(** The entries of a host-API table that the definition loop reaches: those
    before the first entry with an empty name. *)
Fixpoint before_terminator (apis : list ngx_wasm_host_api_t)
    : list ngx_wasm_host_api_t :=
  match apis with
  | [] => []
  | api :: rest =>
      if Nat.eqb (name_len api) 0 then [] else api :: before_terminator rest
  end.

Definition terminated (apis : list ngx_wasm_host_api_t) : bool :=
  existsb (fun api => Nat.eqb (name_len api) 0) apis.

(** The stores and linkers created, the modules and linkers deleted, the
    function types built and deleted, the engines deleted, and the
    definitions made in a linker (linker, namespace, name, function type,
    callback) with their answers. *)
Definition store_new_of (ev : event) : option ptr :=
  match ev with
  | Event e x =>
      match e in api X return X -> option ptr with
      | wasmtime_store_new _ => fun x => Some x
      | _ => fun _ => None
      end x
  end.

Definition linker_new_of (ev : event) : option ptr :=
  match ev with
  | Event e x =>
      match e in api X return X -> option ptr with
      | wasmtime_linker_new _ => fun x => Some x
      | _ => fun _ => None
      end x
  end.

Definition module_delete_of (ev : event) : option ptr :=
  match ev with
  | Event e _ =>
      match e with wasmtime_module_delete m => Some m | _ => None end
  end.

Definition linker_delete_of (ev : event) : option ptr :=
  match ev with
  | Event e _ =>
      match e with wasmtime_linker_delete l => Some l | _ => None end
  end.

Definition engine_delete_of (ev : event) : option ptr :=
  match ev with
  | Event e _ =>
      match e with wasm_engine_delete p => Some p | _ => None end
  end.

Definition functype_of (ev : event) : option ptr :=
  match ev with
  | Event e x =>
      match e in api X return X -> option ptr with
      | ngx_http_wasm_host_api_func _ => fun x => Some x
      | _ => fun _ => None
      end x
  end.

Definition functype_delete_of (ev : event) : option ptr :=
  match ev with
  | Event e _ =>
      match e with wasm_functype_delete f => Some f | _ => None end
  end.

Definition definition_of (ev : event)
    : option (ptr * string * string * ptr * ptr * ptr) :=
  match ev with
  | Event e x =>
      match e in api X
            return X -> option (ptr * string * string * ptr * ptr * ptr) with
      | wasmtime_linker_define_func l namespace field ty callback =>
          fun x => Some (l, namespace, field, ty, callback, x)
      | _ => fun _ => None
      end x
  end.

(** The engine of a guest whose one export, [on_request], takes and
    returns nothing. *)
Definition with_hook : script :=
  {| s_engine := 1%N; s_module_new := (NULL, 2%N); s_store := 3%N;
     s_context := 4%N; s_wasi_config := 5%N; s_set_wasi := NULL;
     s_linker := 6%N; s_define_wasi := NULL; s_functype := 7%N;
     s_duplicate_error := 20%N; s_alloc := 8%N;
     s_instantiate := (NULL, 9%N, NULL);
     s_exports := [("on_request", fun _ => guest_returns [])];
     s_call_error := 21%N; s_call_trap := 22%N; s_message := "diagnostic" |}.


(** An engine that never fails and hands out a new address at every
    creation; its state is the last address handed out.  Everything that is
    not a creation is answered as by [scripted all_succeed]. *)
Definition fresh_pointers : handler N :=
  fun X (e : api X) (n : N) =>
    match e in api X return X * N with
    | wasm_engine_new => (N.succ n, N.succ n)
    | wasmtime_module_new _ _ => ((NULL, N.succ n), N.succ n)
    | wasmtime_store_new _ => (N.succ n, N.succ n)
    | wasmtime_store_context _ => (N.succ n, N.succ n)
    | wasi_config_new => (N.succ n, N.succ n)
    | wasmtime_linker_new _ => (N.succ n, N.succ n)
    | ngx_http_wasm_host_api_func _ => (N.succ n, N.succ n)
    | ngx_alloc => (N.succ n, N.succ n)
    | e' => (fst (scripted all_succeed e' []), n)
    end.

(** The engine whose failed compilation returns an error and leaves in
    [module] what the uninitialised local held. *)
Definition stale_module : script :=
  {| s_engine := 1%N; s_module_new := (30%N, 12297829382473034410%N);
     s_store := 3%N; s_context := 4%N; s_wasi_config := 5%N;
     s_set_wasi := NULL; s_linker := 6%N; s_define_wasi := NULL;
     s_functype := 7%N; s_duplicate_error := 20%N; s_alloc := 8%N;
     s_instantiate := (NULL, 9%N, NULL); s_exports := guest_exports;
     s_call_error := 21%N; s_call_trap := 22%N;
     s_message := "expected magic header" |}.

(** What the reporter is handed: an engine error or a trap. *)
Inductive diagnostic :=
| engine_error (error : ptr)
| guest_trap (trap : ptr).

(** The messages read off a diagnostic, with the diagnostic they were read
    from; the diagnostics deleted; and the function types asked for, each
    with the table entry it was asked for. *)
Definition message_of (ev : event) : option (diagnostic * wasm_byte_vec_t) :=
  match ev with
  | Event e x =>
      match e in api X return X -> option (diagnostic * wasm_byte_vec_t) with
      | wasmtime_error_message error => fun m => Some (engine_error error, m)
      | wasm_trap_message trap => fun m => Some (guest_trap trap, m)
      | _ => fun _ => None
      end x
  end.

Definition diagnostic_delete_of (ev : event) : option diagnostic :=
  match ev with
  | Event e _ =>
      match e with
      | wasmtime_error_delete error => Some (engine_error error)
      | wasm_trap_delete trap => Some (guest_trap trap)
      | _ => None
      end
  end.

Definition functype_request_of (ev : event)
    : option (ngx_wasm_host_api_t * ptr) :=
  match ev with
  | Event e x =>
      match e in api X return X -> option (ngx_wasm_host_api_t * ptr) with
      | ngx_http_wasm_host_api_func a => fun f => Some (a, f)
      | _ => fun _ => None
      end x
  end.

(** ** Properties *)

(** Name the answer of the next foreign call of the run under study. *)
Ltac answer :=
  match goal with
  | |- context [?h ?X ?e ?w] =>
      match type of h with
      | handler _ =>
          is_var w;
          let x := fresh "x" in
          let w' := fresh "w" in
          destruct (h X e w) as [x w'];
          match type of x with
          | unit => destruct x
          | _ => idtac
          end;
          cbn
      end
  end.

Ltac answers := repeat answer.

(** *** The error reporter *)

(** Given an engine error, the reporter reads its message, deletes the
    error, logs the message after the caller's context string at error
    level, and deletes the message buffer; it makes no other call. *)
Lemma report_error_of_engine_error W (h : handler W) w message error trap :
  error <> NULL ->
  let o := run h (ngx_wasm_wasmtime_report_error message error trap) w in
  exists m,
    calls o =
      [ Event (wasmtime_error_message error) m;
        Event (wasmtime_error_delete error) tt;
        Event (ngx_log_error NGX_LOG_ERR "%s%*s"
                 [arg_str message; arg_size (size m); arg_str (data m)]) tt;
        Event (wasm_byte_vec_delete m) tt ]
    /\ returned o = Some tt.
Proof.
  intros Herr. unfold ngx_wasm_wasmtime_report_error, is_null.
  apply N.eqb_neq in Herr. rewrite Herr. cbn.
  destruct (h _ (wasmtime_error_message error) w) as [m w1]. cbn.
  destruct (h _ (wasmtime_error_delete error) w1) as [[] w2]. cbn.
  destruct (h _ (ngx_log_error NGX_LOG_ERR "%s%*s"
                   [arg_str message; arg_size (size m); arg_str (data m)]) w2)
    as [[] w3]. cbn.
  destruct (h _ (wasm_byte_vec_delete m) w3) as [[] w4]. cbn.
  exists m. split; reflexivity.
Qed.

(** Given no engine error, the reporter does the same with the trap. *)
Lemma report_error_of_trap W (h : handler W) w message trap :
  let o := run h (ngx_wasm_wasmtime_report_error message NULL trap) w in
  exists m,
    calls o =
      [ Event (wasm_trap_message trap) m;
        Event (wasm_trap_delete trap) tt;
        Event (ngx_log_error NGX_LOG_ERR "%s%*s"
                 [arg_str message; arg_size (size m); arg_str (data m)]) tt;
        Event (wasm_byte_vec_delete m) tt ]
    /\ returned o = Some tt.
Proof.
  unfold ngx_wasm_wasmtime_report_error. cbn.
  destruct (h _ (wasm_trap_message trap) w) as [m w1]. cbn.
  destruct (h _ (wasm_trap_delete trap) w1) as [[] w2]. cbn.
  destruct (h _ (ngx_log_error NGX_LOG_ERR "%s%*s"
                   [arg_str message; arg_size (size m); arg_str (data m)]) w2)
    as [[] w3]. cbn.
  destruct (h _ (wasm_byte_vec_delete m) w3) as [[] w4]. cbn.
  exists m. split; reflexivity.
Qed.

(** *** Engine life cycle *)

(** A declined init leaves [vm_engine] null, a successful one leaves it set
    to the engine created. *)
Lemma init_status W (h : handler W) w g :
  exists rc g',
    returned (run h (ngx_wasm_wasmtime_init g) w) = Some (rc, g')
    /\ ((rc = NGX_DECLINED /\ vm_engine g' = NULL)
        \/ (rc = NGX_OK /\ vm_engine g' <> NULL)).
Proof.
  unfold ngx_wasm_wasmtime_init. cbn.
  destruct (h _ (ngx_log_error NGX_LOG_NOTICE "init wasm vm: wasmtime" []) w)
    as [[] w1]. cbn.
  destruct (h _ wasm_engine_new w1) as [engine w2]. cbn.
  unfold is_null. destruct (N.eqb_spec engine NULL) as [E | E]; cbn.
  - exists NGX_DECLINED. eexists. split; [reflexivity | left; auto].
  - exists NGX_OK. eexists. split; [reflexivity | right; auto].
Qed.

(** C9: cleanup makes no foreign call at all when [vm_engine] is null, and
    otherwise logs and deletes exactly that engine; it is null, and cleanup
    a no-op, both before any init and after an init that did not return
    [NGX_OK]. *)
Theorem cleanup_deletes_engine_if_present W (h : handler W) w g :
  let o := run h (ngx_wasm_wasmtime_cleanup g) w in
  returned o = Some tt
  /\ calls o =
       (if is_null (vm_engine g) then []
        else [ Event (ngx_log_error NGX_LOG_INFO "cleanup wasm vm: wasmtime"
                        []) tt;
               Event (wasm_engine_delete (vm_engine g)) tt ])
  /\ calls (run h (ngx_wasm_wasmtime_cleanup initial_globals) w) = []
  /\ (let i := run h (ngx_wasm_wasmtime_init g) w in
      match returned i with
      | Some (rc, g') =>
          rc = NGX_OK
          \/ (calls (run h (ngx_wasm_wasmtime_cleanup g') (world i)) = []
              /\ world (run h (ngx_wasm_wasmtime_cleanup g') (world i))
                 = world i)
      | None => False
      end).
Proof.
  repeat split.
  - unfold ngx_wasm_wasmtime_cleanup.
    destruct (is_null (vm_engine g)); cbn; [reflexivity |].
    answers. reflexivity.
  - unfold ngx_wasm_wasmtime_cleanup.
    destruct (is_null (vm_engine g)); cbn; [reflexivity |].
    destruct (h _ (ngx_log_error NGX_LOG_INFO "cleanup wasm vm: wasmtime" [])
                w) as [[] w1]. cbn.
    destruct (h _ (wasm_engine_delete (vm_engine g)) w1) as [[] w2].
    reflexivity.
  - unfold ngx_wasm_wasmtime_init, ngx_wasm_wasmtime_cleanup. cbn.
    destruct (h _ (ngx_log_error NGX_LOG_NOTICE "init wasm vm: wasmtime" [])
                w) as [[] w1]. cbn.
    destruct (h _ wasm_engine_new w1) as [engine w2]. cbn.
    destruct (is_null engine) eqn:E; cbn.
    + right. rewrite E. split; reflexivity.
    + left. reflexivity.
Qed.

(** *** The call dispatcher *)

Section CallProperties.

Context {W : Type} (h : handler W) (w : W).
Variables VOID I32_I32 : Z.
Variables (g : globals) (plugin : ngx_wasm_wasmtime_plugin_t).
Variables (name : string) (has_result : bool) (param_type : Z).
Variable args : list Z.

Local Abbreviation the_call :=
  (run h (ngx_wasm_wasmtime_call VOID I32_I32 g plugin name has_result
            param_type args) w).

(** The tail of the dispatcher once the export is invoked: split on the
    answer of the engine. *)
Ltac after_invocation :=
  match goal with
  | |- context [negb (is_null ?error) || negb (is_null ?trap)] =>
      destruct (negb (is_null error) || negb (is_null trap)) eqn:?; cbn;
      [ unfold ngx_wasm_wasmtime_report_error;
        destruct (negb (is_null error)); cbn; answers
      | match goal with
        | |- context [negb ?b] => destruct b; cbn
        end;
        [ match goal with
          | |- context [(?k =? WASMTIME_I32)%Z] =>
              destruct (k =? WASMTIME_I32)%Z eqn:?; cbn; answers
          end
        | answers ] ]
  end.

(** Every call looks the export up exactly once, under the name given. *)
Lemma call_looks_up_once :
  exists found, lookups (calls the_call) = [(name, found)].
Proof.
  unfold the_call, ngx_wasm_wasmtime_call. cbn.
  answer. answer. destruct x as [found func]. exists (found, func). cbn.
  destruct found; cbn; [| answers; reflexivity].
  destruct (param_type =? I32_I32)%Z.
  - destruct args as [| a [| b rest]]; cbn; try reflexivity.
    answer. destruct x as [[error result0] trap].
    after_invocation; reflexivity.
  - destruct (param_type =? VOID)%Z; cbn; [| answers; reflexivity].
    answer. destruct x as [[error result0] trap].
    after_invocation; reflexivity.
Qed.

(** C3: when the lookup answers that the name is not among the exports, the
    call returns [NGX_OK], invokes nothing, writes nothing to the error log,
    leaves the file-scope variables as they were, and its only foreign calls
    are the lookup itself and two debug lines. *)
Theorem call_of_absent_export_is_ok (func : wasmtime_extern_t) :
  lookups (calls the_call) = [(name, (false, func))] ->
  returned the_call = Some (NGX_OK, g)
  /\ invocations (calls the_call) = []
  /\ error_log (calls the_call) = []
  /\ calls the_call =
       [ Event (ngx_log_debug NGX_LOG_DEBUG_CORE "wasmtime call function %V"
                  [arg_str name]) tt;
         Event (wasmtime_instance_export_get (context plugin)
                  (instance plugin) name) (false, func);
         Event (ngx_log_debug NGX_LOG_DEBUG_CORE
                  "wasmtime function %V not defined" [arg_str name]) tt ].
Proof.
  unfold the_call, ngx_wasm_wasmtime_call. cbn.
  answer. answer. destruct x as [found f]. cbn.
  destruct found; cbn.
  - intros H. exfalso. injection H as H _. discriminate H.
  - answers. intros H. injection H as ->. repeat split; reflexivity.
Qed.

(** C7, as amended: when the export is present and the shape tag is neither
    of the two the switch knows, the call logs the tag at error level and
    returns [NGX_ERROR]; the export is not invoked and the file-scope
    variables are left as they were. *)
Theorem call_with_unknown_shape_fails (func : wasmtime_extern_t) :
  lookups (calls the_call) = [(name, (true, func))] ->
  param_type <> I32_I32 ->
  param_type <> VOID ->
  returned the_call = Some (NGX_ERROR, g)
  /\ error_log (calls the_call) =
       [(NGX_LOG_ERR, "unknown param type: %d", [arg_int param_type])]
  /\ invocations (calls the_call) = [].
Proof.
  intros H H1 H2. revert H.
  apply Z.eqb_neq in H1. apply Z.eqb_neq in H2.
  unfold the_call, ngx_wasm_wasmtime_call. cbn.
  answer. answer. destruct x as [found f]. cbn.
  destruct found; cbn.
  - rewrite H1, H2. cbn. answers. intros _. repeat split; reflexivity.
  - answers. intros H. discriminate H.
Qed.

(** C8: when a result is requested and the one invocation of the export
    comes back with neither error nor trap but with a result whose kind is
    not [WASMTIME_I32], the call logs that kind at error level and returns
    [NGX_ERROR]. *)
Theorem call_with_result_of_other_kind_fails
    (func : N) (params : list wasmtime_val_t) (n : nat)
    (result0 : wasmtime_val_t) :
  has_result = true ->
  invocations (calls the_call) = [(func, params, n, (NULL, result0, NULL))] ->
  kind result0 <> WASMTIME_I32 ->
  status_of the_call = Some NGX_ERROR
  /\ error_log (calls the_call) =
       [(NGX_LOG_ERR, "function returns unexpected type: %d",
         [arg_int (kind result0)])].
Proof.
  intros Hres H Hkind. revert H. apply Z.eqb_neq in Hkind.
  unfold status_of, the_call, ngx_wasm_wasmtime_call. rewrite Hres. cbn.
  answer. answer. destruct x as [found f]. cbn.
  destruct found; cbn; [| answers; intros H; discriminate H].
  destruct (param_type =? I32_I32)%Z.
  - destruct args as [| a [| b rest]]; cbn; try (intros H; discriminate H).
    answer. destruct x as [[error r] trap]. cbn.
    intros H. injection H as _ _ _ -> -> -> _. cbn.
    rewrite Hkind. cbn. answers. split; reflexivity.
  - destruct (param_type =? VOID)%Z; cbn;
      [| answers; intros H; discriminate H].
    answer. destruct x as [[error r] trap]. cbn.
    intros H. injection H as _ _ _ -> -> -> _. cbn.
    rewrite Hkind. cbn. answers. split; reflexivity.
Qed.

(** An invocation that comes back with an error or a trap goes through
    the reporter: the call returns [NGX_ERROR]; one message is read, off
    the error when there is one and off the trap otherwise; that
    diagnostic, and no other, is deleted; and the one line in the error log
    is that message after the dispatcher's context string. *)
Lemma call_reports_failed_invocation
    (func : N) (params : list wasmtime_val_t) (n : nat)
    (error : ptr) (result0 : wasmtime_val_t) (trap : ptr) :
  invocations (calls the_call) = [(func, params, n, (error, result0, trap))] ->
  negb (is_null error) || negb (is_null trap) = true ->
  status_of the_call = Some NGX_ERROR
  /\ exists m,
       collect message_of (calls the_call) =
         [((if negb (is_null error) then engine_error error
            else guest_trap trap), m)]
       /\ collect diagnostic_delete_of (calls the_call) =
            [if negb (is_null error) then engine_error error
             else guest_trap trap]
       /\ error_log (calls the_call) =
            [(NGX_LOG_ERR, "%s%*s",
              [arg_str "failed to call function: "; arg_size (size m);
               arg_str (data m)])].
Proof.
  intros H Hfail. revert H.
  unfold status_of, ngx_wasm_wasmtime_call. cbn.
  answer. answer. destruct x as [found f]. cbn.
  destruct found; cbn; [| answers; intros H; discriminate H].
  destruct (param_type =? I32_I32)%Z.
  - destruct args as [| a [| b rest]]; cbn; try (intros H; discriminate H).
    answer. destruct x as [[e r] t]. cbn.
    intros H. injection H as _ _ _ -> -> -> _. rewrite Hfail. cbn.
    unfold ngx_wasm_wasmtime_report_error.
    destruct (negb (is_null error)); cbn; answers;
      (split; [reflexivity | eexists; repeat split; reflexivity]).
  - destruct (param_type =? VOID)%Z; cbn;
      [| answers; intros H; discriminate H].
    answer. destruct x as [[e r] t]. cbn.
    intros H. injection H as _ _ _ -> -> -> _. rewrite Hfail. cbn.
    unfold ngx_wasm_wasmtime_report_error.
    destruct (negb (is_null error)); cbn; answers;
      (split; [reflexivity | eexists; repeat split; reflexivity]).
Qed.

End CallProperties.

(** C4: for the two-int32 shape with a result requested, when the one
    invocation of the export comes back with neither error nor trap and a
    result of kind [WASMTIME_I32], the call returns the integer of that
    result as it is; the export was handed the two variadic arguments, in
    order, in the two slots of [param_int32_int32], one result was asked
    for, and nothing went to the error log. *)
Theorem call_returns_guest_integer W (h : handler W) w (VOID I32_I32 : Z)
    g plugin name (a b : Z) (rest : list Z)
    (func : N) (params : list wasmtime_val_t) (n : nat) (v : Z) :
  let o := run h (ngx_wasm_wasmtime_call VOID I32_I32 g plugin name true
                    I32_I32 (a :: b :: rest)) w in
  invocations (calls o) =
    [(func, params, n, (NULL, mk_val WASMTIME_I32 v, NULL))] ->
  status_of o = Some v
  /\ params = [ mk_val (kind (fst (param_int32_int32 g))) a;
                mk_val (kind (snd (param_int32_int32 g))) b ]
  /\ n = 1%nat
  /\ error_log (calls o) = [].
Proof.
  unfold status_of, ngx_wasm_wasmtime_call. cbn.
  answer. answer. destruct x as [found f]. cbn.
  destruct found; cbn; [| answers; intros H; discriminate H].
  rewrite Z.eqb_refl. cbn.
  answer. destruct x as [[error r] trap]. cbn.
  intros H. injection H as _ <- <- -> -> -> _. cbn.
  answers. repeat split; reflexivity.
Qed.

(** Scenario A of the specification: the export [add] called with 2 and 3
    returns 5. *)
Lemma call_returns_guest_integer_witness :
  let o := run (scripted all_succeed)
             (ngx_wasm_wasmtime_call 1 2 example_globals example_plugin "add"
                true 2 [2; 3]%Z) [] in
  invocations (calls o) =
    [(0%N, [mk_val WASMTIME_I32 2; mk_val WASMTIME_I32 3], 1%nat,
      (NULL, mk_val WASMTIME_I32 5, NULL))]
  /\ status_of o = Some 5%Z.
Proof.
  split.
  - reflexivity.
  - exact (proj1 (@call_returns_guest_integer _ (scripted all_succeed) []
                    1%Z 2%Z example_globals example_plugin "add" 2%Z 3%Z []
                    0%N _ _ 5%Z eq_refl)).
Defined.

(** Scenario B of the specification: a guest without [on_request]. *)
Lemma call_of_absent_export_is_ok_witness :
  let o := run (scripted all_succeed)
             (ngx_wasm_wasmtime_call 1 2 example_globals example_plugin
                "on_request" false 1 []) [] in
  lookups (calls o) = [("on_request", (false, unwritten_extern))]
  /\ returned o = Some (NGX_OK, example_globals)
  /\ invocations (calls o) = [].
Proof.
  split; [reflexivity |].
  pose proof (@call_of_absent_export_is_ok _ (scripted all_succeed) []
                1%Z 2%Z example_globals example_plugin "on_request" false
                1%Z [] unwritten_extern eq_refl) as H.
  split; [exact (proj1 H) | exact (proj1 (proj2 H))].
Defined.

(** C7 as stated fails: the export lookup comes before the switch on the
    shape tag, so a call with an unknown tag and a name the guest does not
    export returns [NGX_OK] and logs nothing. *)
Lemma unknown_shape_of_absent_export_is_ok :
  ~ (forall (VOID I32_I32 : Z) W (h : handler W) w g plugin name has_result
            param_type args,
       param_type <> I32_I32 ->
       param_type <> VOID ->
       let o := run h (ngx_wasm_wasmtime_call VOID I32_I32 g plugin name
                         has_result param_type args) w in
       status_of o = Some NGX_ERROR
       /\ error_log (calls o) =
            [(NGX_LOG_ERR, "unknown param type: %d", [arg_int param_type])]).
Proof.
  intros H.
  specialize (H 1%Z 2%Z _ (scripted all_succeed) [] example_globals
                example_plugin "on_request" false 99%Z []).
  destruct H as [H _]; [discriminate | discriminate |].
  vm_compute in H. discriminate H.
Qed.

Lemma call_with_unknown_shape_fails_witness :
  let o := run (scripted all_succeed)
             (ngx_wasm_wasmtime_call 1 2 example_globals example_plugin "add"
                true 99 [2; 3]%Z) [] in
  lookups (calls o) = [("add", (true, mk_extern 0 0%N))]
  /\ returned o = Some (NGX_ERROR, example_globals)
  /\ invocations (calls o) = [].
Proof.
  split; [reflexivity |].
  assert (H1 : 99%Z <> 2%Z) by discriminate.
  assert (H2 : 99%Z <> 1%Z) by discriminate.
  pose proof (@call_with_unknown_shape_fails _ (scripted all_succeed) []
                1%Z 2%Z example_globals example_plugin "add" true 99%Z
                [2; 3]%Z (mk_extern 0 0%N) eq_refl H1 H2) as H.
  split; [exact (proj1 H) | exact (proj2 (proj2 H))].
Defined.

Lemma call_with_result_of_other_kind_fails_witness :
  let o := run (scripted all_succeed)
             (ngx_wasm_wasmtime_call 1 2 example_globals example_plugin "wide"
                true 1 []) [] in
  invocations (calls o) =
    [(2%N, [], 1%nat, (NULL, mk_val WASMTIME_I64 0, NULL))]
  /\ status_of o = Some NGX_ERROR.
Proof.
  split; [reflexivity |].
  assert (Hk : kind (mk_val WASMTIME_I64 0) <> WASMTIME_I32) by discriminate.
  exact (proj1 (@call_with_result_of_other_kind_fails _ (scripted all_succeed)
                  [] 1%Z 2%Z example_globals example_plugin "wide" true 1%Z []
                  2%N [] 1%nat (mk_val WASMTIME_I64 0) eq_refl eq_refl Hk)).
Defined.

(** C10: [NGX_ERROR] is an [int32_t] value, and there is a guest with an
    export whose successful call (no error, no trap, a result of kind
    [WASMTIME_I32], nothing in the error log) returns the very status that
    the call returns for an unknown shape tag, for an export that traps and
    for a result of another kind. *)
Theorem failure_status_is_guest_returnable (VOID I32_I32 : Z)
    g plugin (a b : Z) :
  int32_range NGX_ERROR
  /\ exists (s : script) (export : string) (unknown : Z),
       let call_it name param_type :=
         run (scripted s)
           (ngx_wasm_wasmtime_call VOID I32_I32 g plugin name true param_type
              [a; b]) [] in
       unknown <> VOID /\ unknown <> I32_I32
       /\ (exists func params,
             invocations (calls (call_it export I32_I32)) =
               [(func, params, 1%nat,
                 (NULL, mk_val WASMTIME_I32 NGX_ERROR, NULL))])
       /\ error_log (calls (call_it export I32_I32)) = []
       /\ status_of (call_it export I32_I32) = Some NGX_ERROR
       /\ status_of (call_it export unknown) = Some NGX_ERROR
       /\ status_of (call_it "crash" I32_I32) = Some NGX_ERROR
       /\ status_of (call_it "wide" I32_I32) = Some NGX_ERROR.
Proof.
  split.
  - unfold int32_range, int32_min, int32_max, NGX_ERROR. lia.
  - exists all_succeed, "minus_one", (Z.max VOID I32_I32 + 1)%Z.
    assert (H1 : (Z.max VOID I32_I32 + 1)%Z <> VOID) by lia.
    assert (H2 : (Z.max VOID I32_I32 + 1)%Z <> I32_I32) by lia.
    cbv zeta. split; [exact H1 | split; [exact H2 |]].
    apply Z.eqb_neq in H1, H2.
    unfold status_of, ngx_wasm_wasmtime_call.
    cbn. rewrite !Z.eqb_refl, H2, H1. cbn.
    repeat split; try reflexivity.
    eexists. eexists. reflexivity.
Qed.

(** *** The module loader *)

(** When [wasmtime_module_new] leaves [module] null, the one test load
    makes after compiling, load returns [NULL] and that call is the only
    foreign call it makes: no store, configuration, linker or plugin record
    is allocated. *)
Theorem load_of_invalid_bytecode_allocates_nothing W (h : handler W) w
    (host_apis : list ngx_wasm_host_api_t) g bytecode (error : ptr) :
  let o := run h (ngx_wasm_wasmtime_load host_apis g bytecode) w in
  compilations (calls o) = [(error, NULL)] ->
  returned o = Some None
  /\ calls o =
       [Event (wasmtime_module_new (vm_engine g) bytecode) (error, NULL)]
  /\ existsb is_allocation (calls o) = false.
Proof.
  unfold ngx_wasm_wasmtime_load.
  cbn [run bind call calls returned world fst snd].
  destruct (h _ (wasmtime_module_new (vm_engine g) bytecode) w)
    as [[e m] w1].
  cbn [fst snd compilations collect compilation_of].
  intros H. injection H as -> -> _.
  repeat split; reflexivity.
Qed.

(** Scenario C of the specification: malformed bytecode. *)
Lemma load_of_invalid_bytecode_allocates_nothing_witness :
  let o := run (scripted compilation_fails)
             (ngx_wasm_wasmtime_load example_host_apis example_globals
                [Byte.x00; Byte.x61; Byte.x73]) [] in
  compilations (calls o) = [(30%N, NULL)]
  /\ returned o = Some None
  /\ existsb is_allocation (calls o) = false.
Proof.
  split; [reflexivity |].
  pose proof (@load_of_invalid_bytecode_allocates_nothing _
                (scripted compilation_fails) [] example_host_apis
                example_globals [Byte.x00; Byte.x61; Byte.x73] 30%N eq_refl)
    as H.
  split; [exact (proj1 H) | exact (proj2 (proj2 H))].
Defined.

(** Running a sequence: the first part runs, then the second from where the
    first left the foreign side; the traces follow one another. *)
Lemma run_bind A B W (h : handler W) (p : prog A) (f : A -> prog B) w :
  run h (bind p f) w =
    let o1 := run h p w in
    match returned o1 with
    | Some a =>
        let o2 := run h (f a) (world o1) in
        mk_outcome (returned o2) (world o2) (calls o1 ++ calls o2)
    | None => mk_outcome None (world o1) (calls o1)
    end.
Proof.
  revert w. induction p as [a | X e k IH |]; intros w; cbn.
  - destruct (run h (f a) w); reflexivity.
  - rewrite IH. cbn.
    destruct (returned (run h (k (fst (h X e w))) (snd (h X e w))));
      reflexivity.
  - reflexivity.
Qed.

Lemma collect_app B (f : event -> option B) (t1 t2 : trace) :
  collect f (t1 ++ t2) = collect f t1 ++ collect f t2.
Proof.
  induction t1 as [| ev t1 IH]; cbn; [reflexivity |].
  destruct (f ev); cbn; rewrite IH; reflexivity.
Qed.

Lemma report_error_calls W (h : handler W) w message error trap :
  forallb in_definition_loop
    (calls (run h (ngx_wasm_wasmtime_report_error message error trap) w))
  = true
  /\ returned (run h (ngx_wasm_wasmtime_report_error message error trap) w)
     = Some tt.
Proof.
  unfold ngx_wasm_wasmtime_report_error.
  destruct (negb (is_null error)); cbn; answers; split; reflexivity.
Qed.

Lemma define_host_apis_calls W (h : handler W) linker apis :
  forall w,
    forallb in_definition_loop
      (calls (run h (define_host_apis linker apis) w)) = true.
Proof.
  induction apis as [| api rest IH]; intros w; cbn; [reflexivity |].
  destruct (Nat.eqb (name_len api) 0); cbn; [reflexivity |].
  answer. answer. answer. answer.
  destruct (negb (is_null x0)); cbn.
  - rewrite run_bind. cbn.
    destruct (report_error_calls h w3 "failed to define API" x0 NULL)
      as [Hc Hr].
    rewrite Hr. cbn. rewrite app_nil_r. exact Hc.
  - apply IH.
Qed.

Lemma collect_quiet B (f : event -> option B) (t : trace) :
  (forall ev, in_definition_loop ev = true -> f ev = None) ->
  forallb in_definition_loop t = true ->
  collect f t = [].
Proof.
  intros Hf. induction t as [| ev t IH]; cbn; [reflexivity |].
  intros H. apply andb_prop in H. destruct H as [H1 H2].
  rewrite (Hf ev H1). exact (IH H2).
Qed.

Ltac quiet_reader :=
  let ev := fresh "ev" in
  let e := fresh "e" in
  intros ev; destruct ev as [? e ?]; destruct e; cbn;
  (reflexivity || discriminate).

Lemma quiet_alloc ev : in_definition_loop ev = true -> alloc_of ev = None.
Proof. revert ev. quiet_reader. Qed.

Lemma quiet_free ev : in_definition_loop ev = true -> free_of ev = None.
Proof. revert ev. quiet_reader. Qed.

Lemma quiet_instantiation ev :
  in_definition_loop ev = true -> instantiation_of ev = None.
Proof. revert ev. quiet_reader. Qed.

Lemma quiet_attachment ev :
  in_definition_loop ev = true -> attachment_of ev = None.
Proof. revert ev. quiet_reader. Qed.

Lemma quiet_context_query ev :
  in_definition_loop ev = true -> context_query_of ev = None.
Proof. revert ev. quiet_reader. Qed.

Lemma quiet_config_delete ev :
  in_definition_loop ev = true -> config_delete_of ev = None.
Proof. revert ev. quiet_reader. Qed.

Lemma quiet_store_delete ev :
  in_definition_loop ev = true -> store_delete_of ev = None.
Proof. revert ev. quiet_reader. Qed.

(** Walking through load: name each answer, split on each null test, and
    step over the reporter and over the definition loop, whose calls none of
    the readers above looks at. *)
Ltac split_answer :=
  match goal with
  | |- context [let (_, _) := ?x in _] => is_var x; destruct x; cbn
  end.

Ltac null_test :=
  match goal with
  | |- context [is_null ?p] =>
      is_var p; let E := fresh "E" in destruct (is_null p) eqn:E; cbn
  end.

Ltac hush H :=
  rewrite ?(collect_quiet _ _ quiet_alloc H),
          ?(collect_quiet _ _ quiet_free H),
          ?(collect_quiet _ _ quiet_instantiation H),
          ?(collect_quiet _ _ quiet_attachment H),
          ?(collect_quiet _ _ quiet_context_query H),
          ?(collect_quiet _ _ quiet_config_delete H),
          ?(collect_quiet _ _ quiet_store_delete H).

Ltac reporter :=
  match goal with
  | |- context [run ?h (bind (ngx_wasm_wasmtime_report_error ?m ?e ?t) ?k) ?w] =>
      let Hc := fresh "Hc" in
      let Hr := fresh "Hr" in
      let r := fresh "r" in
      let wr := fresh "w" in
      let tr := fresh "reported" in
      rewrite (run_bind h (ngx_wasm_wasmtime_report_error m e t) k w);
      destruct (report_error_calls h w m e t) as [Hc Hr];
      cbv zeta;
      destruct (run h (ngx_wasm_wasmtime_report_error m e t) w) as [r wr tr];
      cbn in Hc, Hr; rewrite Hr; cbn;
      rewrite ?collect_app; hush Hc; cbn
  end.

Ltac definition_loop :=
  match goal with
  | |- context [run ?h (bind (define_host_apis ?l ?apis) ?k) ?w] =>
      let Hc := fresh "Hc" in
      let r := fresh "r" in
      let wr := fresh "w" in
      let tr := fresh "defining" in
      rewrite (run_bind h (define_host_apis l apis) k w);
      pose proof (define_host_apis_calls h l apis w) as Hc;
      cbv zeta;
      destruct (run h (define_host_apis l apis) w) as [r wr tr];
      cbn in Hc; destruct r as [[|] |]; cbn;
      rewrite ?collect_app; hush Hc; cbn
  end.

Ltac walk :=
  repeat first [ answer | split_answer | null_test | reporter
               | definition_loop ].

Lemma is_null_false p : is_null p = false -> p <> NULL.
Proof. unfold is_null. apply N.eqb_neq. Qed.

(** A plugin handed back by load holds the module, store and linker created
    by that run, none of them null, the context the store answered with,
    and the instance of the one instantiation, which answered no error. *)
Lemma load_success W (h : handler W) w
    (host_apis : list ngx_wasm_host_api_t) g bytecode data plugin :
  let o := run h (ngx_wasm_wasmtime_load host_apis g bytecode) w in
  returned o = Some (Some (data, plugin)) ->
  data <> NULL /\ module plugin <> NULL /\ store plugin <> NULL
  /\ linker plugin <> NULL
  /\ collect context_query_of (calls o) = [(store plugin, context plugin)]
  /\ collect alloc_of (calls o) = [data]
  /\ (exists trap,
        collect instantiation_of (calls o) =
          [(data, (NULL, instance plugin, trap))])
  /\ collect config_delete_of (calls o) = []
  /\ collect store_delete_of (calls o) = [].
Proof.
  unfold ngx_wasm_wasmtime_load. cbn.
  walk.
  all: try (intros H; discriminate H).
  intros H. injection H as <- <-. cbn.
  repeat split; try (apply is_null_false; assumption).
  unfold is_null in *.
  match goal with
  | E : (?e =? NULL)%N = true |- exists _, [(_, (?e, _, ?t))] = _ =>
      apply N.eqb_eq in E; rewrite E; exists t; reflexivity
  end.
Qed.

(** C1, where the code departs from it: whenever the instantiation answers
    an error, load returns [NULL] although the plugin record it passed to
    the instantiation came non-null from [ngx_alloc], and [ngx_free] is
    never called: the record is still allocated when load returns. *)
Theorem load_keeps_plugin_record_when_instantiation_fails W (h : handler W) w
    (host_apis : list ngx_wasm_host_api_t) g bytecode
    (data error : ptr) (inst : wasmtime_instance_t) (trap : ptr) :
  let o := run h (ngx_wasm_wasmtime_load host_apis g bytecode) w in
  collect instantiation_of (calls o) = [(data, (error, inst, trap))] ->
  error <> NULL ->
  returned o = Some None
  /\ data <> NULL
  /\ collect alloc_of (calls o) = [data]
  /\ collect free_of (calls o) = [].
Proof.
  unfold ngx_wasm_wasmtime_load. cbn.
  walk.
  all: try (intros H; discriminate H).
  all: intros H Herr; injection H as -> -> -> ->.
  - exfalso. apply Herr. unfold is_null in *.
    match goal with
    | E : (error =? NULL)%N = true |- _ => apply N.eqb_eq in E; exact E
    end.
  - repeat split. apply is_null_false. assumption.
Qed.

(** The failing run: a guest that imports a function the table does not
    define.  The ledger of the run still holds the record. *)
Lemma load_keeps_plugin_record_when_instantiation_fails_witness :
  let o := run (scripted instantiation_fails)
             (ngx_wasm_wasmtime_load example_host_apis example_globals [])
             [] in
  collect instantiation_of (calls o) = [(8%N, (30%N, 9%N, NULL))]
  /\ returned o = Some None
  /\ collect alloc_of (calls o) = [8%N]
  /\ collect free_of (calls o) = []
  /\ holds (audit (calls o)) (R_memory, 8%N) = true.
Proof.
  split; [reflexivity |].
  assert (Herr : 30%N <> NULL) by discriminate.
  pose proof (@load_keeps_plugin_record_when_instantiation_fails _
                (scripted instantiation_fails) [] example_host_apis
                example_globals [] 8%N 30%N 9%N NULL eq_refl Herr) as H.
  split; [exact (proj1 H) |].
  split; [exact (proj1 (proj2 (proj2 H))) |].
  split; [exact (proj2 (proj2 (proj2 H))) | reflexivity].
Defined.

(** C2, where the code departs from it: whenever
    [wasmtime_context_set_wasi] answers no error, so that the store behind
    the context has taken the configuration, and load then fails, the
    rollback calls [wasi_config_delete] on that configuration and deletes
    the store that owns it as well: the configuration is released both by
    its owner and by the rollback. *)
Theorem load_rollback_deletes_attached_config W (h : handler W) w
    (host_apis : list ngx_wasm_host_api_t) g bytecode (ctx config : ptr) :
  let o := run h (ngx_wasm_wasmtime_load host_apis g bytecode) w in
  collect attachment_of (calls o) = [(ctx, config, NULL)] ->
  returned o = Some None ->
  collect config_delete_of (calls o) = [config]
  /\ exists s,
       collect context_query_of (calls o) = [(s, ctx)]
       /\ collect store_delete_of (calls o) = [s].
Proof.
  unfold ngx_wasm_wasmtime_load. cbn.
  walk.
  all: try (intros H; discriminate H).
  all: try (intros _ H; discriminate H).
  all: intros H; injection H as -> -> ->.
  all: try (exfalso; unfold is_null in *; cbn in *; congruence).
  all: intros _; split; [reflexivity | eexists; split; reflexivity].
Qed.

(** The failing run: the linker cannot be created after the configuration
    was attached.  The ledger of the run records the second release of the
    configuration, and nothing else. *)
Lemma load_rollback_deletes_attached_config_witness :
  let o := run (scripted linker_fails)
             (ngx_wasm_wasmtime_load example_host_apis example_globals [])
             [] in
  collect attachment_of (calls o) = [(4%N, 5%N, NULL)]
  /\ returned o = Some None
  /\ collect config_delete_of (calls o) = [5%N]
  /\ collect store_delete_of (calls o) = [3%N]
  /\ faults (audit (calls o)) = [(R_wasi_config, 5%N)]
  /\ live (audit (calls o)) = [].
Proof.
  split; [reflexivity |]. split; [reflexivity |].
  pose proof (@load_rollback_deletes_attached_config _
                (scripted linker_fails) [] example_host_apis example_globals
                [] 4%N 5%N eq_refl eq_refl) as H.
  split; [exact (proj1 H) |].
  split; [reflexivity |]. split; reflexivity.
Defined.

(** C5, where the code departs from it: an error that
    [wasmtime_module_new] returns together with a null [module] never
    reaches the reporter.  Load returns [NULL] at once; nothing is written
    to the error log and the error is not deleted: it is the one resource
    the run leaves behind. *)
Theorem load_drops_compilation_error W (h : handler W) w
    (host_apis : list ngx_wasm_host_api_t) g bytecode (error : ptr) :
  let o := run h (ngx_wasm_wasmtime_load host_apis g bytecode) w in
  compilations (calls o) = [(error, NULL)] ->
  error <> NULL ->
  returned o = Some None
  /\ error_log (calls o) = []
  /\ live (audit (calls o)) = [(R_error, error)]
  /\ faults (audit (calls o)) = [].
Proof.
  unfold ngx_wasm_wasmtime_load.
  cbn [run bind call calls returned world fst snd].
  destruct (h _ (wasmtime_module_new (vm_engine g) bytecode) w)
    as [[e m] w1].
  cbn [fst snd compilations collect compilation_of].
  intros H Herr. injection H as -> -> _.
  cbn. unfold acquire. cbn.
  unfold is_null. apply N.eqb_neq in Herr. rewrite Herr.
  repeat split; reflexivity.
Qed.

Lemma load_drops_compilation_error_witness :
  let o := run (scripted compilation_fails)
             (ngx_wasm_wasmtime_load example_host_apis example_globals
                [Byte.x00; Byte.x61; Byte.x73]) [] in
  compilations (calls o) = [(30%N, NULL)]
  /\ returned o = Some None
  /\ error_log (calls o) = []
  /\ live (audit (calls o)) = [(R_error, 30%N)].
Proof.
  split; [reflexivity |].
  assert (Herr : 30%N <> NULL) by discriminate.
  pose proof (@load_drops_compilation_error _ (scripted compilation_fails) []
                example_host_apis example_globals
                [Byte.x00; Byte.x61; Byte.x73] 30%N eq_refl Herr) as H.
  split; [exact (proj1 H) |].
  split; [exact (proj1 (proj2 H)) | exact (proj1 (proj2 (proj2 H)))].
Defined.

(** A trap that the instantiation hands back without an error is not looked
    at: load returns the plugin as loaded, and the trap is neither reported
    nor deleted. *)
Lemma load_ignores_instantiation_trap :
  let o := run (scripted start_traps)
             (ngx_wasm_wasmtime_load example_host_apis example_globals [])
             [] in
  returned o = Some (Some (8%N, example_plugin))
  /\ error_log (calls o) = [(NGX_LOG_INFO, "loaded wasm plugin", [])]
  /\ holds (audit (calls o)) (R_trap, 31%N) = true.
Proof. repeat split. Qed.

(** Scenario D of the specification: the second definition of a name fails;
    the error is reported and load returns [NULL]. *)
Lemma load_of_duplicate_host_api :
  let o := run (scripted all_succeed)
             (ngx_wasm_wasmtime_load duplicate_host_apis example_globals [])
             [] in
  returned o = Some None
  /\ error_log (calls o) =
       [(NGX_LOG_ERR, "%s%*s",
         [arg_str "failed to define API"; arg_size 10;
          arg_str "diagnostic"])]
  /\ collect alloc_of (calls o) = [].
Proof. repeat split. Qed.

(** A load that succeeds, followed by the unload of its plugin, leaves
    nothing held and releases nothing twice: the configuration goes with
    the store that owns it. *)
Lemma load_then_unload_releases_everything :
  let o := run (scripted all_succeed)
             (p <- ngx_wasm_wasmtime_load example_host_apis example_globals
                     [] ;;
              match p with
              | Some (data, plugin) => ngx_wasm_wasmtime_unload data plugin
              | None => Ret tt
              end) [] in
  returned o = Some tt
  /\ live (audit (calls o)) = []
  /\ faults (audit (calls o)) = [].
Proof. repeat split. Qed.

(** ** Further properties of the adapter *)

(** *** Engine life cycle, composed *)

Lemma audit_from_app l t1 t2 :
  audit_from l (t1 ++ t2) = audit_from (audit_from l t1) t2.
Proof. unfold audit_from. apply fold_left_app. Qed.

Lemma resource_eqb_refl r : resource_eqb r r = true.
Proof.
  destruct r as [k p]. unfold resource_eqb. cbn.
  rewrite N.eqb_refl. destruct k; reflexivity.
Qed.

(** Rewrite with the null tests met on the way. *)
Ltac use_null_tests :=
  repeat match goal with
         | E : is_null ?p = _ |- context [is_null ?p] => rewrite E
         end.

(** Work out a ledger whose pointers are variables. *)
Ltac settle_ledger :=
  unfold audit, audit_from; cbn;
  repeat (unfold acquire, release, holds; cbn; use_null_tests; cbn;
          rewrite ?resource_eqb_refl, ?N.eqb_refl; cbn).

(** An init followed by a cleanup, whatever the engine answers: when the
    engine was created, cleanup deletes that very engine, once; when it was
    not, nothing is deleted.  Nothing is left held and nothing is released
    that was not held. *)
Theorem init_then_cleanup_is_balanced W (h : handler W) w g :
  let i := run h (ngx_wasm_wasmtime_init g) w in
  match returned i with
  | Some (rc, g') =>
      let c := run h (ngx_wasm_wasmtime_cleanup g') (world i) in
      collect engine_delete_of (calls i ++ calls c)
        = (if Z.eqb rc NGX_OK then [vm_engine g'] else [])
      /\ live (audit (calls i ++ calls c)) = []
      /\ faults (audit (calls i ++ calls c)) = []
  | None => False
  end.
Proof.
  unfold ngx_wasm_wasmtime_init, ngx_wasm_wasmtime_cleanup. cbn.
  answer. answer. null_test; use_null_tests; cbn; answers; settle_ledger;
    repeat split; reflexivity.
Qed.

(** Cleanup does not reset [vm_engine]: a second cleanup after a successful
    init deletes the same engine a second time. *)
Theorem cleanup_twice_deletes_engine_twice W (h : handler W) w g g' :
  let i := run h (ngx_wasm_wasmtime_init g) w in
  let c1 := run h (ngx_wasm_wasmtime_cleanup g') (world i) in
  let c2 := run h (ngx_wasm_wasmtime_cleanup g') (world c1) in
  returned i = Some (NGX_OK, g') ->
  collect engine_delete_of (calls i ++ calls c1 ++ calls c2)
    = [vm_engine g'; vm_engine g']
  /\ faults (audit (calls i ++ calls c1 ++ calls c2))
     = [(R_engine, vm_engine g')]
  /\ live (audit (calls i ++ calls c1 ++ calls c2)) = [].
Proof.
  unfold ngx_wasm_wasmtime_init, ngx_wasm_wasmtime_cleanup. cbn.
  answer. answer. null_test; intros H; [discriminate H | injection H as H].
  subst g'. cbn. use_null_tests. cbn. answers. settle_ledger.
  repeat split; reflexivity.
Qed.

Lemma cleanup_twice_deletes_engine_twice_witness :
  let g' := {| vm_engine := 1%N;
               param_int32_int32 := param_int32_int32 initial_globals |} in
  let i := run (scripted all_succeed) (ngx_wasm_wasmtime_init initial_globals)
             [] in
  let c1 := run (scripted all_succeed) (ngx_wasm_wasmtime_cleanup g')
              (world i) in
  let c2 := run (scripted all_succeed) (ngx_wasm_wasmtime_cleanup g')
              (world c1) in
  returned i = Some (NGX_OK, g')
  /\ faults (audit (calls i ++ calls c1 ++ calls c2)) = [(R_engine, 1%N)].
Proof.
  split; [reflexivity |].
  exact (proj1 (proj2 (@cleanup_twice_deletes_engine_twice _
                         (scripted all_succeed) [] initial_globals _
                         eq_refl))).
Defined.

(** Init does not look at the engine it overwrites: after two successful
    inits, cleanup deletes the second engine only and the first is left
    held. *)
Theorem second_init_drops_first_engine W (h : handler W) w g g1 g2 :
  let i1 := run h (ngx_wasm_wasmtime_init g) w in
  let i2 := run h (ngx_wasm_wasmtime_init g1) (world i1) in
  let c := run h (ngx_wasm_wasmtime_cleanup g2) (world i2) in
  returned i1 = Some (NGX_OK, g1) ->
  returned i2 = Some (NGX_OK, g2) ->
  collect engine_delete_of (calls i1 ++ calls i2 ++ calls c) = [vm_engine g2]
  /\ live (audit (calls i1 ++ calls i2 ++ calls c))
     = [(R_engine, vm_engine g1)]
  /\ faults (audit (calls i1 ++ calls i2 ++ calls c)) = [].
Proof.
  unfold ngx_wasm_wasmtime_init, ngx_wasm_wasmtime_cleanup. cbn.
  answer. answer. null_test; intros H; [discriminate H | injection H as H].
  subst g1. cbn. answer. answer.
  null_test; intros H; [discriminate H | injection H as H].
  subst g2. cbn. use_null_tests. cbn. answers. settle_ledger.
  repeat split; reflexivity.
Qed.

Lemma second_init_drops_first_engine_witness :
  let g1 := {| vm_engine := 1%N;
               param_int32_int32 := param_int32_int32 initial_globals |} in
  let g2 := {| vm_engine := 2%N;
               param_int32_int32 := param_int32_int32 initial_globals |} in
  let i1 := run fresh_pointers (ngx_wasm_wasmtime_init initial_globals)
              0%N in
  let i2 := run fresh_pointers (ngx_wasm_wasmtime_init g1) (world i1) in
  let c := run fresh_pointers (ngx_wasm_wasmtime_cleanup g2) (world i2) in
  returned i1 = Some (NGX_OK, g1)
  /\ returned i2 = Some (NGX_OK, g2)
  /\ live (audit (calls i1 ++ calls i2 ++ calls c)) = [(R_engine, 1%N)].
Proof.
  split; [reflexivity |]. split; [reflexivity |].
  exact (proj1 (proj2 (@second_init_drops_first_engine _ fresh_pointers 0%N
                         initial_globals _ _ eq_refl eq_refl))).
Defined.

(** *** The call dispatcher, further *)

(** Split on what follows an invocation: error, trap, result. *)
Ltac invocation_tail :=
  match goal with
  | |- context [negb (is_null ?error) || negb (is_null ?trap)] =>
      let E1 := fresh "E" in
      let E2 := fresh "E" in
      destruct (is_null error) eqn:E1; destruct (is_null trap) eqn:E2; cbn;
      unfold ngx_wasm_wasmtime_report_error; use_null_tests; cbn; answers
  end;
  try match goal with
      | |- context [(?k =? WASMTIME_I32)%Z] =>
          destruct (k =? WASMTIME_I32)%Z eqn:?; cbn; answers
      end.

(** Every path through the dispatcher. *)
Ltac walk_call_from_lookup param_type args I32_I32 VOID :=
  cbn; answer; answer; split_answer;
  match goal with
  | |- context [if negb ?found then _ else _] => destruct found; cbn
  end;
  [ destruct (param_type =? I32_I32)%Z eqn:?;
    [ destruct args as [| ? [| ? ?]]; cbn;
      [ | | answer; repeat split_answer; invocation_tail ]
    | destruct (param_type =? VOID)%Z eqn:?; cbn;
      [ answer; repeat split_answer; invocation_tail | answers ] ]
  | answers ].

Ltac walk_call has_result param_type args I32_I32 VOID :=
  unfold status_of, ngx_wasm_wasmtime_call; destruct has_result;
  walk_call_from_lookup param_type args I32_I32 VOID.

Ltac null_facts :=
  unfold is_null in *;
  repeat match goal with
         | E : (_ =? NULL)%N = true |- _ => apply N.eqb_eq in E
         end;
  subst.

Section CallFurther.

Context {W : Type} (h : handler W) (w : W).
Variables VOID I32_I32 : Z.
Variables (g : globals) (plugin : ngx_wasm_wasmtime_plugin_t).
Variables (name : string) (has_result : bool) (param_type : Z).
Variable args : list Z.

Local Abbreviation the_call :=
  (run h (ngx_wasm_wasmtime_call VOID I32_I32 g plugin name has_result
            param_type args) w).

(** The status a call returns is [NGX_OK], [NGX_ERROR], or the integer of
    an [i32] result that a successful invocation handed back when a result
    was requested; nothing else. *)
Theorem call_status_is_ok_error_or_guest_result
    (rc : ngx_int_t) (g' : globals) :
  returned the_call = Some (rc, g') ->
  rc = NGX_OK \/ rc = NGX_ERROR
  \/ (has_result = true
      /\ exists func params result0,
           invocations (calls the_call) =
             [(func, params, 1%nat, (NULL, result0, NULL))]
           /\ kind result0 = WASMTIME_I32
           /\ rc = of_i32 result0).
Proof.
  walk_call has_result param_type args I32_I32 VOID.
  all: intros H; try discriminate H; injection H as <- <-; auto.
  all: right; right; split; [reflexivity |]; null_facts.
  all: do 3 eexists; split; [reflexivity |].
  all: split; [apply Z.eqb_eq; assumption | reflexivity].
Qed.

(** A call makes at most one invocation.  What it invokes is the [of.func]
    of the extern the lookup handed back (the kind of the extern is not
    looked at); it asks for one result exactly when a result is requested,
    and it passes the first two variadic arguments for the two-int32 shape
    and no parameter for the void shape. *)
Theorem call_invokes_what_it_looked_up :
  invocations (calls the_call) = []
  \/ exists ext params answer,
       lookups (calls the_call) = [(name, (true, ext))]
       /\ invocations (calls the_call) =
            [(of_func ext, params, (if has_result then 1 else 0)%nat, answer)]
       /\ ((param_type = I32_I32 /\ map of_i32 params = firstn 2 args
            /\ List.length args >= 2)
           \/ (param_type <> I32_I32 /\ param_type = VOID /\ params = [])).
Proof.
  walk_call has_result param_type args I32_I32 VOID.
  all: try (left; reflexivity).
  all: right; do 3 eexists; split; [reflexivity |]; split; [reflexivity |].
  all: try (left; split; [apply Z.eqb_eq; assumption |];
            split; [reflexivity | cbn; lia]).
  all: right; split; [apply Z.eqb_neq; assumption |];
       split; [apply Z.eqb_eq; assumption | reflexivity].
Qed.

(** A call never touches [vm_engine] nor the kinds of the two slots of
    [param_int32_int32]; it leaves the file-scope variables as they were
    unless it invoked an export with the two-int32 shape, in which case
    the slots hold the two arguments it passed. *)
Theorem call_keeps_file_scope_variables (rc : ngx_int_t) (g' : globals) :
  returned the_call = Some (rc, g') ->
  vm_engine g' = vm_engine g
  /\ kind (fst (param_int32_int32 g')) = kind (fst (param_int32_int32 g))
  /\ kind (snd (param_int32_int32 g')) = kind (snd (param_int32_int32 g))
  /\ (g' = g
      \/ (param_type = I32_I32
          /\ invocations (calls the_call) <> []
          /\ [of_i32 (fst (param_int32_int32 g'));
              of_i32 (snd (param_int32_int32 g'))] = firstn 2 args)).
Proof.
  walk_call has_result param_type args I32_I32 VOID.
  all: intros H; try discriminate H; injection H as <- <-; cbn.
  all: repeat split; try reflexivity.
  all: try (left; reflexivity).
  all: right; split; [apply Z.eqb_eq; assumption |];
       split; [discriminate | reflexivity].
Qed.

(** Without a result requested, an invocation that comes back with neither
    error nor trap makes the call return [NGX_OK], whatever is found in
    [results[0]]: no result was asked of the engine, and nothing goes to
    the error log. *)
Theorem call_without_result_returns_ok
    (func : N) (params : list wasmtime_val_t) (n : nat)
    (result0 : wasmtime_val_t) :
  has_result = false ->
  invocations (calls the_call) = [(func, params, n, (NULL, result0, NULL))] ->
  status_of the_call = Some NGX_OK
  /\ n = 0%nat
  /\ error_log (calls the_call) = [].
Proof.
  intros Hres. subst has_result.
  unfold status_of, ngx_wasm_wasmtime_call.
  walk_call_from_lookup param_type args I32_I32 VOID.
  all: intros H; try discriminate H.
  all: injection H as _ _ <- E1' _ E2'; subst.
  all: try (unfold is_null in *; cbn in *; discriminate).
  all: repeat split; reflexivity.
Qed.

End CallFurther.

Lemma call_status_is_ok_error_or_guest_result_witness :
  let o := run (scripted all_succeed)
             (ngx_wasm_wasmtime_call 1 2 example_globals example_plugin "add"
                true 2 [20; 22]%Z) [] in
  status_of o = Some 42%Z
  /\ (42%Z = NGX_OK \/ 42%Z = NGX_ERROR
      \/ (true = true
          /\ exists func params result0,
               invocations (calls o) =
                 [(func, params, 1%nat, (NULL, result0, NULL))]
               /\ kind result0 = WASMTIME_I32
               /\ 42%Z = of_i32 result0)).
Proof.
  split; [reflexivity |].
  exact (@call_status_is_ok_error_or_guest_result _ (scripted all_succeed) []
           1%Z 2%Z example_globals example_plugin "add" true 2%Z [20; 22]%Z
           42%Z _ eq_refl).
Defined.

Lemma call_keeps_file_scope_variables_witness :
  let o := run (scripted all_succeed)
             (ngx_wasm_wasmtime_call 1 2 example_globals example_plugin "add"
                true 2 [20; 22]%Z) [] in
  let g' := {| vm_engine := 1%N;
               param_int32_int32 :=
                 (mk_val WASMTIME_I32 20, mk_val WASMTIME_I32 22) |} in
  returned o = Some (42%Z, g')
  /\ vm_engine g' = vm_engine example_globals.
Proof.
  split; [reflexivity |].
  exact (proj1 (@call_keeps_file_scope_variables _ (scripted all_succeed) []
                  1%Z 2%Z example_globals example_plugin "add" true 2%Z
                  [20; 22]%Z 42%Z _ eq_refl)).
Defined.

Lemma call_without_result_returns_ok_witness :
  let o := run (scripted with_hook)
             (ngx_wasm_wasmtime_call 1 2 example_globals example_plugin
                "on_request" false 1 []) [] in
  invocations (calls o) = [(0%N, [], 0%nat, (NULL, unwritten_val, NULL))]
  /\ status_of o = Some NGX_OK.
Proof.
  split; [reflexivity |].
  exact (proj1 (@call_without_result_returns_ok _ (scripted with_hook) []
                  1%Z 2%Z example_globals example_plugin "on_request" false
                  1%Z [] 0%N [] 0%nat unwritten_val eq_refl eq_refl)).
Defined.

Lemma call_reports_failed_invocation_witness :
  let o := run (scripted all_succeed)
             (ngx_wasm_wasmtime_call 1 2 example_globals example_plugin
                "add" false 2 [2; 3]%Z) [] in
  invocations (calls o) =
    [(0%N, [mk_val WASMTIME_I32 2; mk_val WASMTIME_I32 3], 0%nat,
      (21%N, unwritten_val, NULL))]
  /\ status_of o = Some NGX_ERROR
  /\ collect message_of (calls o) =
       [(engine_error 21%N, mk_byte_vec 10 "diagnostic")]
  /\ exists m,
       collect message_of (calls o) = [(engine_error 21%N, m)]
       /\ collect diagnostic_delete_of (calls o) = [engine_error 21%N]
       /\ error_log (calls o) =
            [(NGX_LOG_ERR, "%s%*s",
              [arg_str "failed to call function: "; arg_size (size m);
               arg_str (data m)])].
Proof.
  split; [reflexivity |].
  pose proof (@call_reports_failed_invocation _ (scripted all_succeed) []
                1%Z 2%Z example_globals example_plugin "add" false 2%Z
                [2; 3]%Z 0%N _ 0%nat 21%N unwritten_val NULL eq_refl eq_refl)
    as H.
  split; [exact (proj1 H) |]. split; [reflexivity |].
  exact (proj2 H).
Defined.

Lemma report_error_of_engine_error_witness :
  let o := run (scripted all_succeed)
             (ngx_wasm_wasmtime_report_error "failed to call function: "
                21%N 22%N) [] in
  21%N <> NULL
  /\ error_log (calls o) =
       [(NGX_LOG_ERR, "%s%*s",
         [arg_str "failed to call function: "; arg_size 10;
          arg_str "diagnostic"])]
  /\ (exists m,
        calls o =
          [ Event (wasmtime_error_message 21%N) m;
            Event (wasmtime_error_delete 21%N) tt;
            Event (ngx_log_error NGX_LOG_ERR "%s%*s"
                     [arg_str "failed to call function: ";
                      arg_size (size m); arg_str (data m)]) tt;
            Event (wasm_byte_vec_delete m) tt ]
        /\ returned o = Some tt).
Proof.
  assert (H : 21%N <> NULL) by discriminate.
  split; [exact H |]. split; [reflexivity |].
  exact (@report_error_of_engine_error _ (scripted all_succeed) []
           "failed to call function: " 21%N 22%N H).
Defined.

(** *** The definition loop and the loader, further *)

(** Replace by [NULL] the pointers a test found null. *)
Ltac null_true :=
  repeat match goal with
         | E : is_null ?p = true |- _ =>
             first [ is_var p; unfold is_null in E; apply N.eqb_eq in E;
                     subst p
                   | clear E ]
         end.

(** One turn of the definition loop: the terminating entry, a definition
    that succeeds, a definition that fails. *)
Ltac loop_step :=
  cbn;
  match goal with
  | |- context [Nat.eqb (name_len ?api) 0] =>
      destruct (Nat.eqb (name_len api) 0) eqn:?; cbn
  end;
  [ | answer; answer; answer; answer; null_test;
      [ | unfold ngx_wasm_wasmtime_report_error; use_null_tests; cbn;
          answers ] ].

(** When the definition loop runs to the terminating entry, it has defined
    the entries before the terminator, each once and in table order, in the
    linker it was given, under the namespace [env], with the entry's name
    and callback and the function type built for that entry; every
    definition answered no error and nothing went to the error log. *)
Lemma definition_loop_defines_table_in_order W (h : handler W) linker apis :
  forall w,
  let o := run h (define_host_apis linker apis) w in
  returned o = Some true ->
  collect definition_of (calls o) =
    map (fun af => (linker, "env", name (fst af), snd af, cb (fst af), NULL))
      (combine (before_terminator apis) (collect functype_of (calls o)))
  /\ List.length (collect functype_of (calls o))
     = List.length (before_terminator apis)
  /\ error_log (calls o) = [].
Proof.
  induction apis as [| api rest IH]; intros w.
  - cbn. intros H; discriminate H.
  - loop_step.
    + intros _. repeat split; reflexivity.
    + intros H. destruct (IH _ H) as (IH1 & IH2 & IH3).
      unfold error_log in *.
      rewrite IH1, IH2, IH3. null_facts. repeat split; reflexivity.
    + intros H; discriminate H.
Qed.

(** When the loop runs to the terminating entry, the function types were
    asked for the entries before the terminator themselves, in table
    order, and each definition was made with the name and callback of the
    entry its function type was asked for. *)
Lemma definition_loop_builds_types_of_entries W (h : handler W) linker apis :
  forall w,
  let o := run h (define_host_apis linker apis) w in
  returned o = Some true ->
  map fst (collect functype_request_of (calls o)) = before_terminator apis
  /\ collect definition_of (calls o) =
       map (fun af => (linker, "env", name (fst af), snd af, cb (fst af),
                       NULL))
         (collect functype_request_of (calls o))
  /\ collect functype_of (calls o)
     = map snd (collect functype_request_of (calls o)).
Proof.
  induction apis as [| api rest IH]; intros w.
  - cbn. intros H; discriminate H.
  - loop_step.
    + intros _. repeat split; reflexivity.
    + intros H. destruct (IH _ H) as (IH1 & IH2 & IH3).
      rewrite IH1, IH2, IH3. null_facts. repeat split; reflexivity.
    + intros H; discriminate H.
Qed.

(** When a definition fails, the loop stops there: the definitions
    attempted are those of the entries up to and including the failing one,
    all but the last answered no error, and the error log holds one line,
    the engine's message after the context string [failed to define API]
    (the name of the entry is not part of the line). *)
Lemma definition_loop_stops_at_first_failure W (h : handler W) linker apis :
  forall w,
  let o := run h (define_host_apis linker apis) w in
  returned o = Some false ->
  exists done failed rest error m,
    before_terminator apis = done ++ failed :: rest
    /\ error <> NULL
    /\ map (fun d => (snd (fst (fst (fst d))), snd d))
         (collect definition_of (calls o))
       = map (fun a => (name a, NULL)) done ++ [(name failed, error)]
    /\ error_log (calls o) =
         [(NGX_LOG_ERR, "%s%*s",
           [arg_str "failed to define API"; arg_size (size m);
            arg_str (data m)])].
Proof.
  induction apis as [| api rest IH]; intros w.
  - cbn. intros H; discriminate H.
  - loop_step.
    + intros H; discriminate H.
    + intros H. destruct (IH _ H) as (done & failed & rest' & error & m & IH1 & IH2 & IH3 & IH4).
      exists (api :: done), failed, rest', error, m.
      unfold error_log in *. rewrite IH1, IH3, IH4. null_facts.
      repeat split; try reflexivity. exact IH2.
    + intros _. exists [], api, (before_terminator rest).
      do 2 eexists. repeat split; try reflexivity.
      apply is_null_false. assumption.
Qed.

(** A loop that runs to the terminating entry, with every function type
    non-null, leaves the ledger as it found it. *)
Lemma definition_loop_keeps_ledger W (h : handler W) linker apis :
  forall w l,
  let o := run h (define_host_apis linker apis) w in
  returned o = Some true ->
  forallb non_null (collect functype_of (calls o)) = true ->
  audit_from l (calls o) = l.
Proof.
  induction apis as [| api rest IH]; intros w l.
  - cbn. intros H; discriminate H.
  - loop_step.
    + intros _ _. reflexivity.
    + intros H Hf. apply andb_prop in Hf. destruct Hf as [Hf1 Hf2].
      unfold audit_from in *. cbn. rewrite IH; try assumption.
      unfold non_null in Hf1. apply negb_true_iff in Hf1.
      unfold acquire, release, holds. cbn. use_null_tests. cbn.
      rewrite !N.eqb_refl. cbn. destruct l; reflexivity.
    + intros H; discriminate H.
Qed.

(** None of the further readers used on load looks at the calls of the
    definition loop. *)
Lemma quiet_compilation ev :
  in_definition_loop ev = true -> compilation_of ev = None.
Proof. revert ev. quiet_reader. Qed.

Lemma quiet_store_new ev :
  in_definition_loop ev = true -> store_new_of ev = None.
Proof. revert ev. quiet_reader. Qed.

Lemma quiet_linker_new ev :
  in_definition_loop ev = true -> linker_new_of ev = None.
Proof. revert ev. quiet_reader. Qed.

Lemma quiet_module_delete ev :
  in_definition_loop ev = true -> module_delete_of ev = None.
Proof. revert ev. quiet_reader. Qed.

Lemma quiet_linker_delete ev :
  in_definition_loop ev = true -> linker_delete_of ev = None.
Proof. revert ev. quiet_reader. Qed.

(** The walk through load, extended: more readers are silenced on the
    calls of the loop, the reporter is unrolled (its error is known
    non-null where it is reached), and what is known of the loop is kept. *)
Ltac hush H ::=
  rewrite ?(collect_quiet _ _ quiet_alloc H),
          ?(collect_quiet _ _ quiet_free H),
          ?(collect_quiet _ _ quiet_instantiation H),
          ?(collect_quiet _ _ quiet_attachment H),
          ?(collect_quiet _ _ quiet_context_query H),
          ?(collect_quiet _ _ quiet_config_delete H),
          ?(collect_quiet _ _ quiet_store_delete H),
          ?(collect_quiet _ _ quiet_compilation H),
          ?(collect_quiet _ _ quiet_store_new H),
          ?(collect_quiet _ _ quiet_linker_new H),
          ?(collect_quiet _ _ quiet_module_delete H),
          ?(collect_quiet _ _ quiet_linker_delete H).

Ltac reporter ::=
  match goal with
  | |- context [ngx_wasm_wasmtime_report_error _ _ _] =>
      unfold ngx_wasm_wasmtime_report_error; use_null_tests; cbn; answers
  end.

(** Every function type the loop builds is deleted, in the order built,
    whether its definition succeeded or not and however the loop ends. *)
Lemma definition_loop_deletes_every_functype W (h : handler W) linker apis :
  forall w,
  let o := run h (define_host_apis linker apis) w in
  collect functype_delete_of (calls o) = collect functype_of (calls o).
Proof.
  induction apis as [| api rest IH]; intros w.
  - reflexivity.
  - loop_step; try reflexivity.
    rewrite IH. reflexivity.
Qed.

(** In a table that has a terminating entry the loop never reads past the
    end. *)
Lemma definition_loop_stays_in_terminated_table W (h : handler W) linker
    apis :
  forall w,
  terminated apis = true ->
  returned (run h (define_host_apis linker apis) w) <> None.
Proof.
  induction apis as [| api rest IH]; intros w.
  - cbn. intros H; discriminate H.
  - unfold terminated. loop_step.
    + intros _ H; discriminate H.
    + intros H. apply IH. exact H.
    + intros _ H; discriminate H.
Qed.

Ltac definition_loop ::=
  match goal with
  | |- context [run ?h (bind (define_host_apis ?l ?apis) ?k) ?w] =>
      let Hc := fresh "Hc" in
      let Hdef := fresh "Hdef" in
      let Hfail := fresh "Hfail" in
      let Hled := fresh "Hled" in
      let Hterm := fresh "Hterm" in
      let Hbal := fresh "Hbal" in
      let Hreq := fresh "Hreq" in
      let r := fresh "r" in
      let wr := fresh "w" in
      let tr := fresh "defining" in
      rewrite (run_bind h (define_host_apis l apis) k w);
      pose proof (define_host_apis_calls h l apis w) as Hc;
      pose proof (definition_loop_defines_table_in_order h l apis w) as Hdef;
      pose proof (definition_loop_stops_at_first_failure h l apis w) as Hfail;
      pose proof (fun led => definition_loop_keeps_ledger h l apis w led)
        as Hled;
      pose proof (definition_loop_stays_in_terminated_table h l apis w)
        as Hterm;
      pose proof (definition_loop_deletes_every_functype h l apis w) as Hbal;
      pose proof (definition_loop_builds_types_of_entries h l apis w) as Hreq;
      cbv zeta in Hdef, Hfail, Hled, Hbal, Hreq |- *;
      destruct (run h (define_host_apis l apis) w) as [r wr tr];
      cbn in Hc, Hdef, Hfail, Hled, Hterm, Hbal, Hreq;
      destruct r as [[|] |]; cbn;
      try specialize (Hdef eq_refl); try specialize (Hfail eq_refl);
      try specialize (Hreq eq_refl);
      try specialize (fun led => Hled led eq_refl);
      rewrite ?collect_app; hush Hc; cbn
  end.

(** A load that returns [NULL] has deleted, exactly once each, the module,
    the store and the linker it created, and no other. *)
Theorem failed_load_deletes_what_it_created W (h : handler W) w
    (host_apis : list ngx_wasm_host_api_t) g bytecode :
  let o := run h (ngx_wasm_wasmtime_load host_apis g bytecode) w in
  returned o = Some None ->
  collect module_delete_of (calls o)
    = filter non_null (map snd (compilations (calls o)))
  /\ collect store_delete_of (calls o)
     = filter non_null (collect store_new_of (calls o))
  /\ collect linker_delete_of (calls o)
     = filter non_null (collect linker_new_of (calls o)).
Proof.
  unfold ngx_wasm_wasmtime_load, compilations. cbn.
  walk.
  all: intros H; try discriminate H.
  all: unfold non_null; use_null_tests; cbn.
  all: repeat split; reflexivity.
Qed.

(** With a table that has a terminating entry, load always returns:
    nothing in it is undefined, whatever the engine answers. *)
Theorem load_stays_in_terminated_table W (h : handler W) w
    (host_apis : list ngx_wasm_host_api_t) g bytecode :
  terminated host_apis = true ->
  returned (run h (ngx_wasm_wasmtime_load host_apis g bytecode) w) <> None.
Proof.
  intros Ht. unfold ngx_wasm_wasmtime_load. cbn.
  walk.
  all: try discriminate.
  match goal with Hterm : _ -> None <> None |- _ => exfalso; apply (Hterm Ht); reflexivity end.
Qed.

(** A load that succeeds has asked for the function types of the entries
    before the terminator themselves, once each and in table order, and has
    defined each of these entries in the linker of the plugin it returns,
    under the namespace [env], with the entry's name and callback and the
    function type answered for that very entry; every function type so
    built was deleted again. *)
Theorem load_defines_table_in_order W (h : handler W) w
    (host_apis : list ngx_wasm_host_api_t) g bytecode data plugin :
  let o := run h (ngx_wasm_wasmtime_load host_apis g bytecode) w in
  returned o = Some (Some (data, plugin)) ->
  map fst (collect functype_request_of (calls o))
    = before_terminator host_apis
  /\ collect definition_of (calls o) =
       map (fun af => (linker plugin, "env", name (fst af), snd af,
                       cb (fst af), NULL))
         (collect functype_request_of (calls o))
  /\ collect functype_of (calls o)
     = map snd (collect functype_request_of (calls o))
  /\ collect definition_of (calls o) =
       map (fun af => (linker plugin, "env", name (fst af), snd af,
                       cb (fst af), NULL))
         (combine (before_terminator host_apis)
            (collect functype_of (calls o)))
  /\ List.length (collect functype_of (calls o))
     = List.length (before_terminator host_apis)
  /\ collect functype_delete_of (calls o) = collect functype_of (calls o).
Proof.
  unfold ngx_wasm_wasmtime_load. cbn.
  walk.
  all: intros H; try discriminate H.
  injection H as <- <-. cbn. rewrite !app_nil_r.
  destruct Hdef as (H1 & H2 & _). destruct Hreq as (R1 & R2 & R3).
  repeat split; assumption.
Qed.

(** What load writes with [ngx_log_error]: one line at info level when it
    succeeds; when it fails, nothing at all (a constructor answered null)
    or one line at error level, an engine message after one of three
    context strings. *)
Theorem load_log_lines W (h : handler W) w
    (host_apis : list ngx_wasm_host_api_t) g bytecode :
  let o := run h (ngx_wasm_wasmtime_load host_apis g bytecode) w in
  match returned o with
  | Some (Some _) =>
      error_log (calls o) = [(NGX_LOG_INFO, "loaded wasm plugin", [])]
  | Some None =>
      error_log (calls o) = []
      \/ exists ctx m,
           error_log (calls o) =
             [(NGX_LOG_ERR, "%s%*s",
               [arg_str ctx; arg_size (size m); arg_str (data m)])]
           /\ In ctx ["failed to init WASI: "; "failed to define API";
                      "failed to new instance: "]
  | None => True
  end.
Proof.
  unfold ngx_wasm_wasmtime_load, error_log. cbn.
  walk.
  all: unfold error_log in *; rewrite ?app_nil_r.
  all: try exact I.
  all: try (destruct Hdef as (_ & _ & Hlog); rewrite Hlog; cbn).
  all: try (destruct Hfail as (? & ? & ? & ? & ? & _ & _ & _ & Hlog);
            rewrite Hlog; cbn).
  all: try reflexivity.
  all: try (left; reflexivity).
  all: right; do 2 eexists; split; [reflexivity | cbn; auto].
Qed.

(** For an engine that returns no error together with a module, builds
    non-null function types and leaves no trap behind a successful
    instantiation: after a successful load exactly the plugin's record,
    linker, store and module and the configuration attached to its store
    are held; after the unload of that plugin nothing is held; and at no
    point is anything released that was not held. *)
Theorem load_then_unload_is_balanced W (h : handler W) w
    (host_apis : list ngx_wasm_host_api_t) g bytecode data plugin :
  let o1 := run h (ngx_wasm_wasmtime_load host_apis g bytecode) w in
  let o2 := run h (ngx_wasm_wasmtime_unload data plugin) (world o1) in
  returned o1 = Some (Some (data, plugin)) ->
  compilations (calls o1) = [(NULL, module plugin)] ->
  forallb non_null (collect functype_of (calls o1)) = true ->
  collect instantiation_of (calls o1) = [(data, (NULL, instance plugin, NULL))] ->
  (exists config,
     collect attachment_of (calls o1) = [(context plugin, config, NULL)]
     /\ live (audit (calls o1)) =
          [(R_memory, data); (R_linker, linker plugin);
           (R_wasi_config, config); (R_store, store plugin);
           (R_module, module plugin)])
  /\ faults (audit (calls o1)) = []
  /\ live (audit (calls o1 ++ calls o2)) = []
  /\ faults (audit (calls o1 ++ calls o2)) = [].
Proof.
  unfold ngx_wasm_wasmtime_load, ngx_wasm_wasmtime_unload, compilations. cbn.
  walk.
  all: intros H; try discriminate H.
  injection H as <- <-. cbn. rewrite !app_nil_r.
  intros H1 H2 H3. injection H1 as ->. injection H3 as -> ->.
  null_true.
  unfold audit. rewrite !fold_left_app, !(Hled _ H2).
  repeat (unfold acquire, release, holds; cbn; use_null_tests; cbn;
          rewrite ?resource_eqb_refl, ?N.eqb_refl; cbn).
  unfold configs_of_store, detach_store; cbn.
  repeat (unfold acquire, release, holds; cbn; use_null_tests; cbn;
          rewrite ?resource_eqb_refl, ?N.eqb_refl; cbn).
  split; [eexists; split; reflexivity | repeat split].
Qed.



Lemma load_stays_in_terminated_table_witness :
  terminated example_host_apis = true
  /\ returned (run (scripted all_succeed)
                 (ngx_wasm_wasmtime_load example_host_apis example_globals
                    []) []) <> None.
Proof.
  split; [reflexivity |].
  exact (@load_stays_in_terminated_table _ (scripted all_succeed) []
           example_host_apis example_globals [] eq_refl).
Defined.

Lemma load_success_witness :
  let o := run (scripted all_succeed)
             (ngx_wasm_wasmtime_load example_host_apis example_globals [])
             [] in
  returned o = Some (Some (8%N, example_plugin))
  /\ collect context_query_of (calls o) = [(3%N, 4%N)]
  /\ collect alloc_of (calls o) = [8%N].
Proof.
  split; [reflexivity |].
  pose proof (@load_success _ (scripted all_succeed) [] example_host_apis
                example_globals [] 8%N example_plugin eq_refl) as H.
  split; [exact (proj1 (proj2 (proj2 (proj2 (proj2 H))))) |].
  exact (proj1 (proj2 (proj2 (proj2 (proj2 (proj2 H)))))).
Defined.

Lemma failed_load_deletes_what_it_created_witness :
  let o := run (scripted instantiation_fails)
             (ngx_wasm_wasmtime_load example_host_apis example_globals [])
             [] in
  returned o = Some None
  /\ collect module_delete_of (calls o) = [2%N]
  /\ collect store_delete_of (calls o) = [3%N]
  /\ collect linker_delete_of (calls o) = [6%N].
Proof.
  split; [reflexivity |].
  exact (@failed_load_deletes_what_it_created _ (scripted instantiation_fails)
           [] example_host_apis example_globals [] eq_refl).
Defined.

Lemma load_defines_table_in_order_witness :
  let o := run fresh_pointers
             (ngx_wasm_wasmtime_load example_host_apis example_globals [])
             0%N in
  returned o =
    Some (Some (8%N, {| module := 1%N; store := 2%N; context := 3%N;
                        linker := 5%N; instance := 9%N |}))
  /\ collect functype_request_of (calls o) =
       [ (mk_host_api "proxy_log" 1%N 100%N, 6%N);
         (mk_host_api "proxy_get_property" 2%N 101%N, 7%N) ]
  /\ collect definition_of (calls o) =
       map (fun af => (5%N, "env", name (fst af), snd af, cb (fst af), NULL))
         (collect functype_request_of (calls o)).
Proof.
  split; [reflexivity |]. split; [reflexivity |].
  exact (proj1 (proj2 (@load_defines_table_in_order _ fresh_pointers 0%N
                         example_host_apis example_globals [] 8%N _
                         eq_refl))).
Defined.

Lemma load_then_unload_is_balanced_witness :
  let plugin := {| module := 1%N; store := 2%N; context := 3%N;
                   linker := 5%N; instance := 9%N |} in
  let o1 := run fresh_pointers
              (ngx_wasm_wasmtime_load example_host_apis example_globals [])
              0%N in
  let o2 := run fresh_pointers (ngx_wasm_wasmtime_unload 8%N plugin)
              (world o1) in
  returned o1 = Some (Some (8%N, plugin))
  /\ compilations (calls o1) = [(NULL, 1%N)]
  /\ forallb non_null (collect functype_of (calls o1)) = true
  /\ collect instantiation_of (calls o1) = [(8%N, (NULL, 9%N, NULL))]
  /\ live (audit (calls o1 ++ calls o2)) = []
  /\ faults (audit (calls o1 ++ calls o2)) = [].
Proof.
  split; [reflexivity |]. split; [reflexivity |]. split; [reflexivity |].
  split; [reflexivity |].
  exact (proj2 (proj2 (@load_then_unload_is_balanced _ fresh_pointers 0%N
                         example_host_apis example_globals [] 8%N _
                         eq_refl eq_refl eq_refl eq_refl))).
Defined.

(** Every function type load has built for a table entry it has deleted
    again, in the order built, however the load ends. *)
Theorem load_deletes_every_functype W (h : handler W) w
    (host_apis : list ngx_wasm_host_api_t) g bytecode :
  let o := run h (ngx_wasm_wasmtime_load host_apis g bytecode) w in
  collect functype_delete_of (calls o) = collect functype_of (calls o).
Proof.
  unfold ngx_wasm_wasmtime_load. cbn.
  walk.
  all: rewrite ?app_nil_r; try exact Hbal; reflexivity.
Qed.

Lemma no_error_among_successful_definitions (l : ptr)
    (afs : list (ngx_wasm_host_api_t * ptr)) :
  existsb (fun d : ptr * string * string * ptr * ptr * ptr => non_null (snd d))
    (map (fun af => (l, "env", name (fst af), snd af, cb (fst af), NULL)) afs)
  = false.
Proof. induction afs as [| af afs IH]; cbn; [reflexivity | exact IH]. Qed.

(** With a terminated table: when a definition answers an error, load
    stops defining there, reports the error after the context string
    [failed to define API] (the entry is not named), and returns [NULL]
    without allocating a plugin record or instantiating; the entries after
    the failing one are never defined. *)
Theorem load_stops_at_first_failed_definition W (h : handler W) w
    (host_apis : list ngx_wasm_host_api_t) g bytecode :
  let o := run h (ngx_wasm_wasmtime_load host_apis g bytecode) w in
  terminated host_apis = true ->
  existsb (fun d => non_null (snd d)) (collect definition_of (calls o))
    = true ->
  returned o = Some None
  /\ (exists done failed rest error m,
        before_terminator host_apis = done ++ failed :: rest
        /\ error <> NULL
        /\ map (fun d => (snd (fst (fst (fst d))), snd d))
             (collect definition_of (calls o))
           = map (fun a => (name a, NULL)) done ++ [(name failed, error)]
        /\ error_log (calls o) =
             [(NGX_LOG_ERR, "%s%*s",
               [arg_str "failed to define API"; arg_size (size m);
                arg_str (data m)])])
  /\ collect alloc_of (calls o) = []
  /\ collect instantiation_of (calls o) = [].
Proof.
  intros o Ht. subst o. unfold ngx_wasm_wasmtime_load, error_log. cbn.
  walk.
  all: rewrite ?app_nil_r.
  all: try (intros H; discriminate H).
  all: try (destruct Hdef as (Hd & _ & _); rewrite Hd;
            rewrite no_error_among_successful_definitions;
            intros H; discriminate H).
  - intros _. unfold error_log in Hfail.
    destruct Hfail as (done & failed & rest & error & m & H1 & H2 & H3 & H4).
    rewrite H4. split; [reflexivity |]. split; [| split; reflexivity].
    exists done, failed, rest, error, m. repeat split; assumption.
  - exfalso. apply (Hterm Ht). reflexivity.
Qed.

Lemma load_stops_at_first_failed_definition_witness :
  let o := run (scripted all_succeed)
             (ngx_wasm_wasmtime_load duplicate_host_apis example_globals [])
             [] in
  terminated duplicate_host_apis = true
  /\ existsb (fun d => non_null (snd d)) (collect definition_of (calls o))
     = true
  /\ returned o = Some None
  /\ collect alloc_of (calls o) = [].
Proof.
  split; [reflexivity |]. split; [reflexivity |].
  pose proof (@load_stops_at_first_failed_definition _ (scripted all_succeed)
                [] duplicate_host_apis example_globals [] eq_refl eq_refl)
    as H.
  split; [exact (proj1 H) | exact (proj1 (proj2 (proj2 H)))].
Defined.

(** C6, where the code departs from it: load does not look at the error
    [wasmtime_module_new] returns but at [module], which it did not
    initialise.  Whenever a compilation fails (an error comes back) and
    [module] is found non-null, load goes on as after a successful
    compilation: it creates a store, and a plugin it returns carries that
    stale [module]; the error is never handed to the reporter nor
    deleted. *)
Theorem load_goes_on_after_failed_compilation W (h : handler W) w
    (host_apis : list ngx_wasm_host_api_t) g bytecode (error stale : ptr) :
  let o := run h (ngx_wasm_wasmtime_load host_apis g bytecode) w in
  compilations (calls o) = [(error, stale)] ->
  error <> NULL ->
  stale <> NULL ->
  (exists s, collect store_new_of (calls o) = [s])
  /\ (forall data plugin,
        returned o = Some (Some (data, plugin)) -> module plugin = stale)
  /\ (returned o = Some None -> collect module_delete_of (calls o) = [stale]).
Proof.
  unfold ngx_wasm_wasmtime_load, compilations. cbn.
  walk.
  all: intros H Herr Hstale; injection H as -> ->.
  all: try (exfalso; apply Hstale; apply N.eqb_eq; assumption).
  all: split; [eexists; reflexivity |].
  all: split; [intros data plugin H; try discriminate H;
               injection H as <- <-; reflexivity |].
  all: intros H; try discriminate H; reflexivity.
Qed.

(** The failing run: bytecode that does not compile, with a non-null value
    left in [module].  Load allocates a store, a configuration, a linker
    and a plugin record and returns a plugin; the compilation error is
    still held and was never logged. *)
Lemma load_goes_on_after_failed_compilation_witness :
  let o := run (scripted stale_module)
             (ngx_wasm_wasmtime_load example_host_apis example_globals
                [Byte.x00; Byte.x61; Byte.x73]) [] in
  compilations (calls o) = [(30%N, 12297829382473034410%N)]
  /\ (exists s, collect store_new_of (calls o) = [s])
  /\ returned o =
       Some (Some (8%N, {| module := 12297829382473034410%N; store := 3%N;
                           context := 4%N; linker := 6%N;
                           instance := 9%N |}))
  /\ collect store_new_of (calls o) = [3%N]
  /\ collect linker_new_of (calls o) = [6%N]
  /\ collect alloc_of (calls o) = [8%N]
  /\ error_log (calls o) = [(NGX_LOG_INFO, "loaded wasm plugin", [])]
  /\ holds (audit (calls o)) (R_error, 30%N) = true.
Proof.
  split; [reflexivity |].
  assert (Herr : 30%N <> NULL) by discriminate.
  assert (Hstale : 12297829382473034410%N <> NULL) by discriminate.
  split.
  - exact (proj1 (@load_goes_on_after_failed_compilation _
                    (scripted stale_module) [] example_host_apis
                    example_globals [Byte.x00; Byte.x61; Byte.x73] 30%N
                    12297829382473034410%N eq_refl Herr Hstale)).
  - repeat split; reflexivity.
Defined.
